(** * ElectionScraper: a shallow embedding of [scraper.py]

    The development follows the module top to bottom: the Python values the
    scraper handles ([str], [dict], exceptions), the document tree the pages
    are parsed into, then [extract_district_units],
    [get_district_turnout_summary], [get_district_party_results],
    [merge_two_tables] and [validate_user_input], and finally the properties
    of each.

    A Python [str] is a [string] holding its UTF-8 encoding: equality,
    concatenation, containment and replacement of well-formed text agree with
    the same operations on code points.  Library functions whose full
    behaviour is a table of the Unicode standard or of a URL grammar
    ([str.lower], [str.strip], [int], [urljoin], [parse_qs]) and the network
    ([get_page_content]) are parameters of the sections that use them; the
    module [Ascii7] gives the instances used to evaluate the code on ASCII
    text. *)

From stdpp Require Import gmap strings list sorting.
From Stdlib Require Import ZArith Lia.

(** ** Python values *)

(** Exceptions that leave the functions of [scraper.py].  [sys.exit(n)]
    raises [SystemExit n]; [FrameError] stands for whichever exception
    pandas rejects a frame or a join with ([ValueError], [KeyError] or
    [MergeError], by case and release). *)
Inductive exn : Type :=
| SystemExit (code : Z)
| ValueError
| FrameError.

Inductive res (A : Type) : Type :=
| Ok (a : A)
| Raise (e : exn).
Arguments Ok {A} a.
Arguments Raise {A} e.

#[global] Instance res_ret : MRet res := fun A a => Ok a.

#[global] Instance res_bind : MBind res := fun A B k r =>
  match r with
  | Ok a => k a
  | Raise e => Raise e
  end.

(** A [dict] with [str] keys keeps insertion order; [d[k] = v] overwrites the
    value of an existing key in place and appends a new key at the end. *)
Abbreviation dict V := (list (string * V)).

Fixpoint dict_set {V : Type} (k : string) (v : V) (d : dict V) : dict V :=
  match d with
  | [] => [(k, v)]
  | (k', v') :: d' =>
      if String.eqb k k' then (k', v) :: d' else (k', v') :: dict_set k v d'
  end.

Fixpoint dict_get {V : Type} (k : string) (d : dict V) : option V :=
  match d with
  | [] => None
  | (k', v') :: d' => if String.eqb k k' then Some v' else dict_get k d'
  end.

Definition dict_keys {V : Type} (d : dict V) : list string := d.*1.

(** [d[k] = v] for each [(k, v)] of a list, in order. *)
Definition assign_all {V : Type} (d : dict V) (entries : list (string * V))
  : dict V :=
  foldl (fun d e => dict_set e.1 e.2 d) d entries.

(** ** [str] methods *)

Module Str.

(** [s.endswith(suffix)] *)
Definition endswith (s suffix : string) : bool :=
  String.prefix (String.rev suffix) (String.rev s).

(** [sub in s] *)
Fixpoint contains (sub s : string) : bool :=
  String.prefix sub s ||
  match s with
  | EmptyString => false
  | String _ s' => contains sub s'
  end.

(** [s.replace(old, new)]: occurrences are replaced from the left and do
    not overlap; [skip] counts the characters of a matched occurrence that
    are still to be dropped. *)
Fixpoint replace_from (old new : string) (skip : nat) (s : string) : string :=
  match s with
  | EmptyString =>
      match old with EmptyString => new | _ => EmptyString end
  | String c s' =>
      match skip with
      | S k => replace_from old new k s'
      | O =>
          if String.prefix old s
          then new +:+
               match old with
               | EmptyString => String c (replace_from old new 0 s')
               | _ => replace_from old new (String.length old - 1) s'
               end
          else String c (replace_from old new 0 s')
      end
  end.

Definition replace (s old new : string) : string := replace_from old new 0 s.

(** The two quote characters [validate_user_input] rejects. *)
Definition dquote : string := String (Ascii.ascii_of_nat 34) EmptyString.
Definition squote : string := String (Ascii.ascii_of_nat 39) EmptyString.

End Str.

(** ** The document tree

    [BeautifulSoup(text, "html.parser")] returns a tree of tags and strings.
    An attribute value is a [str], or a list of [str] for the multi-valued
    attributes ([class] among them). *)

#[local] Set Warnings "-register-all,-clear-no-such-hyp".

Inductive attr_val : Type :=
| AStr (s : string)
| AList (l : list string).

Inductive node : Type :=
| NavigableString (s : string)
| Tag (name : string) (attrs : gmap string attr_val) (contents : list node).

Module Soup.

(** The proper descendants of a node in document order, the order
    [find_all] and [find] search in. *)
Fixpoint descendants (n : node) : list node :=
  match n with
  | NavigableString _ => []
  | Tag _ _ cs =>
      (fix go (l : list node) : list node :=
         match l with
         | [] => []
         | c :: l' => c :: descendants c ++ go l'
         end) cs
  end.

(** [n.text]: the strings below [n], concatenated. *)
Fixpoint text (n : node) : string :=
  match n with
  | NavigableString s => s
  | Tag _ _ cs =>
      (fix go (l : list node) : string :=
         match l with
         | [] => EmptyString
         | c :: l' => text c +:+ go l'
         end) cs
  end.

(** A [str] filter on an attribute: a [str] value has to equal it; of a
    list value, one item or the items joined by a space. *)
Definition attr_matches (v : option attr_val) (target : string) : bool :=
  match v with
  | None => false
  | Some (AStr s) => String.eqb s target
  | Some (AList l) =>
      existsb (String.eqb target) l || String.eqb (String.concat " " l) target
  end.

Definition matches (name : string) (filt : list (string * string))
    (n : node) : bool :=
  match n with
  | NavigableString _ => false
  | Tag nm attrs _ =>
      String.eqb nm name &&
      forallb (fun kv => attr_matches (attrs !! kv.1) kv.2) filt
  end.

(** [n.find_all(name, attrs=filt)] and [n.find(name, attrs=filt)];
    [class_=c] is the filter [("class", c)]. *)
Definition find_all (name : string) (filt : list (string * string))
    (n : node) : list node :=
  List.filter (matches name filt) (descendants n).

Definition find (name : string) (filt : list (string * string))
    (n : node) : option node :=
  head (find_all name filt n).

(** [tag.get(key)] *)
Definition get (n : node) (key : string) : option attr_val :=
  match n with
  | NavigableString _ => None
  | Tag _ attrs _ => attrs !! key
  end.

End Soup.

(** ** [extract_district_units] *)

(** The value stored for a municipality: the keys ["url"] and
    ["číslo obce"] of the inner dict. *)
Record unit_data : Type := UnitData {
  url : string;
  cislo_obce : option string
}.

Section ExtractDistrictUnits.

Variable strip : string → string.
(** [urllib.parse.urljoin(base_url, href)], where [href] is what
    [a_tag.get("href")] gave; [urlsplit] raises [ValueError] on a
    malformed network location. *)
Variable urljoin : string → option attr_val → res string.
(** [parse_qs(urlparse(full_url).query).get("xobec", [None])[0]] *)
Variable xobec_of : string → res (option string).

(** One turn of the loop: [None] for a row that has no [td] of class
    [overflow_name] or no [a]. *)
Definition district_unit_of_row (base_url : string) (row : node)
  : res (option (string * unit_data)) :=
  match Soup.find "td" [("class", "overflow_name")] row,
        Soup.find "a" [] row with
  | Some td, Some a_tag =>
      let name := strip (Soup.text td) in
      let href := Soup.get a_tag "href" in
      full_url ← urljoin base_url href;
      district_units_number ← xobec_of full_url;
      Ok (Some (name, UnitData full_url district_units_number))
  | _, _ => Ok None
  end.

Fixpoint extract_rows (base_url : string) (rows : list node)
    (district_units : dict unit_data) : res (dict unit_data) :=
  match rows with
  | [] => Ok district_units
  | row :: rest =>
      e ← district_unit_of_row base_url row;
      match e with
      | Some (name, data) =>
          extract_rows base_url rest (dict_set name data district_units)
      | None => extract_rows base_url rest district_units
      end
  end.

Definition extract_district_units (soup : node) (base_url : string)
  : res (dict unit_data) :=
  extract_rows base_url (Soup.find_all "tr" [] soup) [].

End ExtractDistrictUnits.

(** ** [get_district_turnout_summary] *)

(** A field of a collected row: a [str], or [None] (the code of a
    municipality whose link has no [xobec]). *)
Abbreviation cell := (option string).

Section TurnoutSummary.

Variable strip : string → string.
(** [get_page_content]: the parsed page, or [None] when the request
    failed. *)
Variable get_page_content : string → option node.

Definition turnout_headers (table : node) : list string :=
  "Číslo obce" :: "Obec" ::
  map (fun column => strip (Soup.text column))
      (Soup.find_all "th" [("rowspan", "2")] table).

Definition turnout_data_row (table : node) : list string :=
  map (fun td => strip (Soup.text td))
      (drop 3 (Soup.find_all "td" [("class", "cislo")] table)).

Fixpoint turnout_loop (units : dict unit_data)
    (headers : option (list string)) (rows : list (list cell))
  : option (list string) * list (list cell) :=
  match units with
  | [] => (headers, rows)
  | (district_unit, data) :: rest =>
      match get_page_content (url data) with
      | None => turnout_loop rest headers rows
      | Some soup =>
          match Soup.find "table" [] soup with
          | None => turnout_loop rest headers rows
          | Some table =>
              let headers' :=
                match headers with
                | None => Some (turnout_headers table)
                | Some h => Some h
                end in
              let data_row := turnout_data_row table in
              turnout_loop rest headers'
                (rows ++ [Some district_unit :: cislo_obce data
                          :: map Some data_row])
          end
      end
  end.

Definition get_district_turnout_summary (district_units_dict : dict unit_data)
  : option (list string) * list (list cell) :=
  turnout_loop district_units_dict None [].

(** What a run reads: the first table of a municipality's page, when the
    page was fetched and has one; the tables of a run in the order of the
    units, the first of them being the reference page's. *)
Definition turnout_table (data : unit_data) : option node :=
  get_page_content (url data) ≫= Soup.find "table" [].

Definition turnout_tables (units : dict unit_data) : list node :=
  omap (fun u => turnout_table u.2) units.

Definition turnout_row (u : string * unit_data) : option (list cell) :=
  (fun table => Some u.1 :: cislo_obce u.2 :: (Some <$> turnout_data_row table))
    <$> turnout_table u.2.

(** The shape of a table, as far as the collector looks at it: how many
    header cells span two rows and how many cells are flagged numeric. *)
Definition table_shape (table : node) : nat * nat :=
  (length (Soup.find_all "th" [("rowspan", "2")] table),
   length (Soup.find_all "td" [("class", "cislo")] table)).

End TurnoutSummary.

(** ** [get_district_party_results] *)

(** [sorted(l, key=lambda x: x[0])]: a stable sort on the number. *)
Fixpoint insert_by_number (x : Z * string) (l : list (Z * string))
  : list (Z * string) :=
  match l with
  | [] => [x]
  | y :: l' =>
      if (x.1 <=? y.1)%Z then x :: y :: l' else y :: insert_by_number x l'
  end.

Definition sorted_by_number (l : list (Z * string)) : list (Z * string) :=
  foldr insert_by_number [] l.

(** The order [sorted] puts the entries in. *)
Definition number_le (a b : Z * string) : Prop := (a.1 ≤ b.1)%Z.

(** The three variables the loops update. *)
Record party_state : Type := PartyState {
  party_list : list (Z * string);
  seen_parties : gset string;
  district_units_data : dict (gmap string string)
}.

Section PartyResults.

Variable strip : string → string.
(** [int(s)]: [None] stands for [ValueError]. *)
Variable int : string → option Z.
Variable get_page_content : string → option node.

Definition placeholder (s : string) : bool :=
  bool_decide (s ∈ [EmptyString; "-"]).

(** What a row is read as: its first three [td] cells, unless there are
    fewer or the name or the votes are empty or a dash ([continue]). *)
Definition row_fields (row : node) : option (string * string * string) :=
  match Soup.find_all "td" [] row with
  | c0 :: c1 :: c2 :: _ =>
      let party_number := strip (Soup.text c0) in
      let party_name := strip (Soup.text c1) in
      let votes := strip (Soup.text c2) in
      if placeholder party_name || placeholder votes then None
      else Some (party_number, party_name, votes)
  | _ => None
  end.

(** The body of [for row in rows], on the [results] of the page and the
    vocabulary collected so far. *)
Definition party_row (row : node)
    (st : gmap string string * list (Z * string) * gset string)
  : res (gmap string string * list (Z * string) * gset string) :=
  let '(results, plist, seen) := st in
  match row_fields row with
  | Some (party_number, party_name, votes) =>
      let results' := <[party_name := votes]> results in
      if bool_decide (party_number ∈ seen) then Ok (results', plist, seen)
      else
        match int party_number with
        | None => Raise ValueError
        | Some n =>
            Ok (results', plist ++ [(n, party_name)],
                {[party_number]} ∪ seen)
        end
  | None => Ok st
  end.

Fixpoint party_rows (rows : list node)
    (st : gmap string string * list (Z * string) * gset string)
  : res (gmap string string * list (Z * string) * gset string) :=
  match rows with
  | [] => Ok st
  | row :: rest => st' ← party_row row st; party_rows rest st'
  end.

Fixpoint party_tables (tables : list node)
    (st : gmap string string * list (Z * string) * gset string)
  : res (gmap string string * list (Z * string) * gset string) :=
  match tables with
  | [] => Ok st
  | table :: rest =>
      st' ← party_rows (Soup.find_all "tr" [] table) st;
      party_tables rest st'
  end.

Fixpoint party_loop (units : dict unit_data) (st : party_state)
  : res party_state :=
  match units with
  | [] => Ok st
  | (district_unit, data) :: rest =>
      match get_page_content (url data) with
      | None => party_loop rest st
      | Some soup =>
          match drop 1 (Soup.find_all "table" [] soup) with
          | [] => party_loop rest st
          | tables =>
              r ← party_tables tables (∅, party_list st, seen_parties st);
              let '(results, plist, seen) := r in
              party_loop rest
                (PartyState plist seen
                   (dict_set district_unit results (district_units_data st)))
          end
      end
  end.

Definition party_names_ordered (plist : list (Z * string)) : list string :=
  (sorted_by_number plist).*2.

Definition party_table_row (names : list string)
    (entry : string * gmap string string) : list cell :=
  Some entry.1 :: map (fun name => Some (default "0" (entry.2 !! name))) names.

Definition get_district_party_results (district_units_dict : dict unit_data)
  : res (list string * list (list cell)) :=
  st ← party_loop district_units_dict (PartyState [] ∅ []);
  let names := party_names_ordered (party_list st) in
  Ok ("Obec" :: names, map (party_table_row names) (district_units_data st)).

(** What a run reads: the rows of every table but the first of every page
    that was fetched, in the order the loops meet them. *)
Definition page_rows (data : unit_data) : list (string * string * string) :=
  match get_page_content (url data) with
  | None => []
  | Some soup =>
      omap row_fields
        (drop 1 (Soup.find_all "table" [] soup) ≫= Soup.find_all "tr" [])
  end.

Definition encountered (units : dict unit_data)
  : list (string * string * string) :=
  units ≫= (fun u => page_rows u.2).

(** The party vocabulary: number and name of the rows whose number text
    was not met before. *)
Fixpoint first_seen (seen : gset string) (l : list (string * string * string))
  : list (string * string) :=
  match l with
  | [] => []
  | (number, name, _) :: l' =>
      if bool_decide (number ∈ seen) then first_seen seen l'
      else (number, name) :: first_seen ({[number]} ∪ seen) l'
  end.

(** The vocabulary with its numbers read by [int], when all of them can
    be. *)
Definition numbered (vocabulary : list (string * string))
  : option (list (Z * string)) :=
  mapM (fun p => (fun n => (n, p.2)) <$> int p.1) vocabulary.

End PartyResults.

(** ** [merge_two_tables]

    The part of pandas the function uses.  A frame is its column labels and
    its rows; a missing value ([None] in the data, [NaN] where the join has
    nothing to put) is the cell [None], which [to_csv] writes as an empty
    field.  The index and the dtypes are not modelled. *)

Record DataFrame : Type := Frame {
  columns : list string;
  values : list (list cell)
}.

Module Pandas.

(** [pd.DataFrame(rows, columns=headers)] on a list of lists: short rows
    are filled with [None] up to the longest, and the number of labels has
    to be that width.  No rows give an empty frame with the labels. *)
Definition width (rows : list (list cell)) : nat := max_list (length <$> rows).

Definition fill (w : nat) (row : list cell) : list cell :=
  row ++ replicate (w - length row) None.

Definition of_rows (rows : list (list cell)) (headers : list string)
  : res DataFrame :=
  match rows with
  | [] => Ok (Frame headers [])
  | _ =>
      if Nat.eqb (width rows) (length headers)
      then Ok (Frame headers (fill (width rows) <$> rows))
      else Raise FrameError
  end.

(** [df.rename(columns=mapping)]: a label the mapping has is replaced,
    any other is kept. *)
Definition renamed (mapping : dict string) (c : string) : string :=
  default c (dict_get c mapping).

Definition rename (mapping : dict string) (df : DataFrame) : DataFrame :=
  Frame (renamed mapping <$> columns df) (values df).

(** The position of the join key, which has to label exactly one column. *)
Fixpoint index_of (key : string) (cols : list string) : option nat :=
  match cols with
  | [] => None
  | c :: cs => if String.eqb c key then Some 0 else S <$> index_of key cs
  end.

Definition key_index (key : string) (cols : list string) : res nat :=
  match index_of key cols with
  | Some i =>
      if bool_decide (key ∈ drop (S i) cols) then Raise FrameError else Ok i
  | None => Raise FrameError
  end.

(** Keys are ordered as [str], missing keys last, and each is kept once. *)
Definition key_leb (a b : cell) : bool :=
  match a, b with
  | Some x, Some y => String.leb x y
  | Some _, None => true
  | None, Some _ => false
  | None, None => true
  end.

Fixpoint key_insert (k : cell) (l : list cell) : list cell :=
  match l with
  | [] => [k]
  | k' :: l' => if key_leb k k' then k :: k' :: l' else k' :: key_insert k l'
  end.

Definition key_add (k : cell) (l : list cell) : list cell :=
  if bool_decide (k ∈ l) then l else key_insert k l.

Definition sorted_keys (ks : list cell) : list cell := foldr key_add [] ks.

Definition has_key (i : nat) (k : cell) (row : list cell) : Prop :=
  row !! i = Some k.

#[global] Instance has_key_dec i k row : Decision (has_key i k row).
Proof. unfold has_key. apply _. Defined.

(** The rows the join gives for one key: every pairing of the left rows
    and the right rows that carry it; a row without a partner is completed
    with missing values, a right one keeping its key. *)
Definition joined (i j w1 w2 : nat) (L R : list (list cell)) (k : cell)
  : list (list cell) :=
  let Lk := filter (has_key i k) L in
  let Rk := filter (has_key j k) R in
  match Lk, Rk with
  | [], _ => (fun r => <[i := k]> (replicate w1 None) ++ delete j r) <$> Rk
  | _, [] => (fun l => l ++ replicate (w2 - 1) None) <$> Lk
  | _, _ => l ← Lk; (fun r => l ++ delete j r) <$> Rk
  end.

(** Labels the two frames share, the key apart, get [_x] on the left and
    [_y] on the right.  The join is refused when that makes a label repeat
    an earlier one of its frame while the label it had did not
    ([duplicated()] of the new index and not of the old). *)
Definition suffixed (overlap : list string) (suffix : string) (c : string)
  : string :=
  if bool_decide (c ∈ overlap) then c +:+ suffix else c.

Fixpoint new_duplicates (seen seen' : list string) (labels labels' : list string)
  : bool :=
  match labels, labels' with
  | c :: rest, c' :: rest' =>
      (bool_decide (c' ∈ seen') && negb (bool_decide (c ∈ seen)))
      || new_duplicates (c :: seen) (c' :: seen') rest rest'
  | _, _ => false
  end.

Definition overlap (lcols rcols : list string) (key : string) : list string :=
  filter (fun c => c ∈ rcols ∧ c ≠ key) lcols.

(** The key of each row; a row too short to have one has a missing key. *)
Definition key_column (i : nat) (rows : list (list cell)) : list cell :=
  (fun r => default None (r !! i)) <$> rows.

(** [pd.merge(left, right, on=key, how="outer")] *)
Definition merge_outer (left right : DataFrame) (key : string)
  : res DataFrame :=
  j ← key_index key (columns right);
  i ← key_index key (columns left);
  let rcols := delete j (columns right) in
  let shared := overlap (columns left) rcols key in
  let llabels := suffixed shared "_x" <$> columns left in
  let rlabels := suffixed shared "_y" <$> rcols in
  if new_duplicates [] [] (columns left) llabels
   || new_duplicates [] [] rcols rlabels
  then Raise FrameError
  else
    Ok (Frame (llabels ++ rlabels)
          (k ← sorted_keys (key_column i (values left)
                            ++ key_column j (values right));
           joined i j (length (columns left)) (length (columns right))
                  (values left) (values right) k)).

End Pandas.

(** The labels the municipality pages print without the space of a line
    break, and what they are renamed to. *)
Definition column_renames : dict string :=
  [ ("Voličiv seznamu", "Voliči v seznamu");
    ("Vydanéobálky", "Vydané obálky");
    ("Volebníúčast v %", "Volební účast v %");
    ("Odevzdanéobálky", "Odevzdané obálky");
    ("Platnéhlasy", "Platné hlasy");
    ("% platnýchhlasů", "% platných hlasů") ].

(** The frame the function returns; writing it with [to_csv] and printing
    the path are effects outside the model.  [headers1] is [None] when
    [get_district_turnout_summary] read no page: the frame then has no
    column labelled ["Obec"] and the join is refused. *)
Definition merge_two_tables
    (headers1 : option (list string)) (rows1 : list (list cell))
    (headers2 : option (list string)) (rows2 : list (list cell))
  : res DataFrame :=
  match headers1, headers2 with
  | Some h1, Some h2 =>
      df1 ← Pandas.of_rows rows1 h1;
      df2 ← Pandas.of_rows rows2 h2;
      let df1 := Pandas.rename column_renames df1 in
      Pandas.merge_outer df1 df2 "Obec"
  | _, _ => Raise FrameError
  end.

(** ** [validate_user_input] *)

Section Validate.

(** [str.lower] and [str.strip]. *)
Variable lower : string → string.
Variable strip : string → string.

(** The guard of the first [if]: the name, lower-cased, ends in [.csv] and
    holds no quote. *)
Definition filename_ok (output_filename : string) : bool :=
  negb (negb (Str.endswith (lower output_filename) ".csv")
        || Str.contains Str.dquote output_filename
        || Str.contains Str.squote output_filename).

Definition district_from_filename (output_filename : string) : string :=
  strip (Str.replace (Str.replace (lower output_filename) ".csv" "")
                     "vysledky_" "").

(** The [for ... break] loop: the lower-cased name of the first entry whose
    url equals the user's, both stripped. *)
Fixpoint district_from_url (user_url : string) (districts : dict string)
  : option string :=
  match districts with
  | [] => None
  | (name, url) :: rest =>
      if String.eqb (strip user_url) (strip url)
      then Some (lower name)
      else district_from_url user_url rest
  end.

Definition validate_user_input
    (user_url output_filename : string) (districts : dict string) : res () :=
  if negb (filename_ok output_filename) then Raise (SystemExit 1)
  else
    match district_from_url user_url districts with
    | None => Raise (SystemExit 1)
    | Some d =>
        if negb (Str.contains (district_from_filename output_filename) d)
        then Raise (SystemExit 1)
        else Ok ()
    end.

End Validate.

(** ASCII instances of the parameters: they agree with CPython on text whose
    characters are all below U+0080. *)
Module Ascii7.

Definition lower_char (c : Ascii.ascii) : Ascii.ascii :=
  let n := Ascii.nat_of_ascii c in
  if (65 <=? n)%nat && (n <=? 90)%nat then Ascii.ascii_of_nat (n + 32) else c.

Fixpoint lower (s : string) : string :=
  match s with
  | EmptyString => EmptyString
  | String c s' => String (lower_char c) (lower s')
  end.

(** Whitespace below U+0080 for [str.strip]: TAB..CR, FS..US and SPACE. *)
Definition is_space (c : Ascii.ascii) : bool :=
  let n := Ascii.nat_of_ascii c in
  ((9 <=? n)%nat && (n <=? 13)%nat) || ((28 <=? n)%nat && (n <=? 32)%nat).

Fixpoint lstrip (s : string) : string :=
  match s with
  | EmptyString => EmptyString
  | String c s' => if is_space c then lstrip s' else s
  end.

Definition strip (s : string) : string :=
  String.rev (lstrip (String.rev (lstrip s))).

(** [int(s)] on ASCII text: blanks around, a sign, decimal digits, with
    single underscores allowed between digits. *)
Definition digit (c : Ascii.ascii) : option Z :=
  let n := Ascii.nat_of_ascii c in
  if (48 <=? n)%nat && (n <=? 57)%nat then Some (Z.of_nat (n - 48)) else None.

Fixpoint digits (s : string) (acc : Z) (after_digit : bool) : option Z :=
  match s with
  | EmptyString => if after_digit then Some acc else None
  | String c s' =>
      match digit c with
      | Some d => digits s' (10 * acc + d)%Z true
      | None =>
          if Ascii.eqb c (Ascii.ascii_of_nat 95) && after_digit
          then digits s' acc false
          else None
      end
  end.

Definition int (s : string) : option Z :=
  match strip s with
  | String c s' =>
      if Ascii.eqb c (Ascii.ascii_of_nat 43) then digits s' 0 false
      else if Ascii.eqb c (Ascii.ascii_of_nat 45)
           then Z.opp <$> digits s' 0 false
           else digits (String c s') 0 false
  | EmptyString => None
  end.

End Ascii7.

(** ** [init_district_data] *)

(** Truth of a [str] and of what [tag.get] returns, as [if x and y] takes
    it: [None], the empty [str] and the empty list are false. *)
Definition truthy (s : string) : bool := negb (String.eqb s EmptyString).

Definition truthy_attr (v : option attr_val) : bool :=
  match v with
  | None => false
  | Some (AStr s) => truthy s
  | Some (AList l) => negb (bool_decide (l = []))
  end.

Definition base_url : string := "https://www.volby.cz/pls/ps2017nss/".

Section InitDistrictData.

Variable lower : string → string.
Variable strip : string → string.
Variable urljoin : string → option attr_val → res string.

(** One turn of the inner loop: [None] for a row with fewer than three
    links or two cells, an empty name, or a third link without target. *)
Definition district_of_row (row : node) : res (option (string * string)) :=
  let tds := Soup.find_all "td" [] row in
  let links := Soup.find_all "a" [] row in
  match links, tds with
  | _ :: _ :: link :: _, _ :: td :: _ =>
      let district_name := strip (Soup.text td) in
      let href := Soup.get link "href" in
      if truthy district_name && truthy_attr href then
        district_url ← urljoin base_url href;
        Ok (Some (lower district_name, district_url))
      else Ok None
  | _, _ => Ok None
  end.

Fixpoint init_rows (rows : list node) (districts : dict string)
  : res (dict string) :=
  match rows with
  | [] => Ok districts
  | row :: rest =>
      e ← district_of_row row;
      match e with
      | Some (name, district_url) =>
          init_rows rest (dict_set name district_url districts)
      | None => init_rows rest districts
      end
  end.

Fixpoint init_tables (tables : list node) (districts : dict string)
  : res (dict string) :=
  match tables with
  | [] => Ok districts
  | table :: rest =>
      districts' ← init_rows (Soup.find_all "tr" [] table) districts;
      init_tables rest districts'
  end.

Definition init_district_data (soup : node) : res (dict string) :=
  init_tables (Soup.find_all "table" [] soup) [].

(** The rows the loops visit, in order: a row of a nested table is visited
    once for each table around it. *)
Definition landing_rows (soup : node) : list node :=
  Soup.find_all "table" [] soup ≫= Soup.find_all "tr" [].

End InitDistrictData.

(** ** What the party collector reads of a unit *)

Section PartyPages.

Variable strip : string → string.
Variable get_page_content : string → option node.

(** A unit gets a row when its page was fetched and has a second table. *)
Definition processed (u : string * unit_data) : bool :=
  match get_page_content (url u.2) with
  | None => false
  | Some soup =>
      match drop 1 (Soup.find_all "table" [] soup) with
      | [] => false
      | _ => true
      end
  end.

(** [results] after the rows of a page: [results[party_name] = votes] for
    each, in order. *)
Definition results_of (rows : list (string * string * string))
  : gmap string string :=
  foldl (fun results r => <[r.1.2 := r.2]> results) ∅ rows.

Definition unit_results (units : dict unit_data)
  : list (string * gmap string string) :=
  (fun u => (u.1, results_of (page_rows strip get_page_content u.2)))
    <$> List.filter processed units.

End PartyPages.

(** ** [main.py] *)

(** How the script ends: the frame written to the output file, an exception
    of the functions above, or the [AttributeError] of calling a method on
    the [None] that [get_page_content] returned.  Errors of writing the file
    are outside the model. *)
Inductive run : Type :=
| Saved (df : DataFrame)
| Failed (e : exn)
| AttributeError.

Definition home_url : string :=
  "https://www.volby.cz/pls/ps2017nss/ps3?xjazyk=CZ".

Section Main.

Variable lower : string → string.
Variable strip : string → string.
Variable int : string → option Z.
Variable urljoin : string → option attr_val → res string.
Variable xobec_of : string → res (option string).
Variable get_page_content : string → option node.

(** The steps after the index is built; [argv] is [sys.argv], the name of
    the script first. *)
Definition scrape (url output_file : string) (districts : dict string) : run :=
  match validate_user_input lower strip url output_file districts with
  | Raise e => Failed e
  | Ok _ =>
      if negb (bool_decide (url ∈ districts.*2)) then Failed (SystemExit 1)
      else
        match get_page_content url with
        | None => AttributeError
        | Some soup_district =>
            match extract_district_units strip urljoin xobec_of
                    soup_district url with
            | Raise e => Failed e
            | Ok district_units_dict =>
                let '(headers1, rows1) :=
                  get_district_turnout_summary strip get_page_content
                    district_units_dict in
                match get_district_party_results strip int get_page_content
                        district_units_dict with
                | Raise e => Failed e
                | Ok (headers2, rows2) =>
                    match merge_two_tables headers1 rows1
                            (Some headers2) rows2 with
                    | Raise e => Failed e
                    | Ok df => Saved df
                    end
                end
            end
        end
  end.

Definition main (argv : list string) : run :=
  match argv with
  | [_; url; output_file] =>
      match get_page_content home_url with
      | None => AttributeError
      | Some soup_home =>
          match init_district_data lower strip urljoin soup_home with
          | Raise e => Failed e
          | Ok districts => scrape url output_file districts
          end
      end
  | _ => Failed (SystemExit 1)
  end.

End Main.

(** ** Inputs the properties below are evaluated on *)

Module Scenario.

(** The district index of the validation scenario. *)
Definition districts : dict string :=
  [("district a", "https://x/a"); ("district b", "https://x/b")].

(** Building blocks of pages. *)
Definition td (class text : string) : node :=
  Tag "td" {[ "class" := AList [class] ]} [NavigableString text].
Definition th2 (text : string) : node :=
  Tag "th" {[ "rowspan" := AStr "2" ]} [NavigableString text].
Definition tr (cells : list node) : node := Tag "tr" ∅ cells.
Definition table (rows : list node) : node := Tag "table" ∅ rows.
Definition document (contents : list node) : node :=
  Tag "[document]" ∅ contents.

(** A municipality page in the layout of the site: three leading numeric
    cells, then one per two-row header. *)
Definition turnout_table : node :=
  table [ tr [th2 "Voličiv seznamu"; th2 "Vydanéobálky"];
          tr [td "cislo" "1"; td "cislo" "1"; td "cislo" "100,00";
              td "cislo" " 205 "; td "cislo" "150"] ].

(** A page whose table has a two-row header and no numeric cell. *)
Definition bare_table : node := table [ tr [th2 "Voličiv seznamu"] ].

Definition alfa : string * unit_data :=
  ("Alfa", UnitData "https://x/ps311?xobec=500011" (Some "500011")).

(** The network of a run: every url serves the same page. *)
Definition serve (page : node) (url : string) : option node := Some page.

(** A district page with two rows for the name Alfa. *)
Definition link (href text : string) : node :=
  Tag "a" {[ "href" := AStr href ]} [NavigableString text].

Definition unit_row (href code name : string) : node :=
  tr [ Tag "td" {[ "class" := AList ["cislo"] ]} [link href code];
       td "overflow_name" name ].

Definition district_page : node :=
  document [ table [ tr [th2 "číslo"; th2 "název"];
                     unit_row "ps311?xobec=1" "1" "Alfa";
                     unit_row "ps311?xobec=2" "2" "Beta";
                     unit_row "ps311?xobec=3" "3" " Alfa " ] ].

(** Stand-ins for the url functions on the links of [district_page]:
    a relative link replaces the last segment of the base, and the code
    is what follows [xobec=]. *)
Definition urljoin (base_url : string) (href : option attr_val)
  : res string :=
  match href with
  | Some (AStr h) => Ok ("https://x/" +:+ h)
  | Some (AList _) => Raise ValueError
  | None => Ok base_url
  end.

Fixpoint after_marker (marker s : string) : option string :=
  if String.prefix marker s
  then Some (String.substring (String.length marker)
               (String.length s - String.length marker) s)
  else match s with
       | EmptyString => None
       | String _ s' => after_marker marker s'
       end.

Definition xobec_of (full_url : string) : res (option string) :=
  Ok (after_marker "xobec=" full_url).

(** Municipality pages whose second table lists the parties: in the
    layout of the site, with two number texts of one number, and with a
    number that is no numeral. *)
Definition party_row (number name votes : string) : node :=
  tr [td "cislo" number; td "overflow_name" name; td "cislo" votes].

Definition party_page : node :=
  document [ turnout_table;
             table [ party_row "2" "Party B" "10";
                     party_row "1" "Party A" "20";
                     party_row "-" "-" "-" ] ].

Definition party_page_two_texts : node :=
  document [ turnout_table;
             table [ party_row "1" "Party A" "20";
                     party_row "01" "Party B" "10" ] ].

Definition party_page_no_numeral : node :=
  document [ turnout_table;
             table [ party_row "1" "Party A" "20";
                     party_row "A2" "Party B" "10" ] ].

(** Two tables to join: Unit1 is in both, Unit2 only in the first (twice
    in [turnout_rows_twice]), Unit3 only in the second. *)
Definition turnout_header : list string :=
  ["Obec"; "Číslo obce"; "Voličiv seznamu"].
Definition turnout_rows : list (list cell) :=
  [ [Some "Unit1"; Some "001"; Some "100"];
    [Some "Unit2"; Some "002"; Some "50"] ].
Definition turnout_rows_twice : list (list cell) :=
  [ [Some "Unit1"; Some "001"; Some "100"];
    [Some "Unit2"; Some "002"; Some "50"];
    [Some "Unit2"; Some "003"; Some "70"] ].
Definition party_header : list string := ["Obec"; "Party X"; "Party Y"].
Definition party_rows : list (list cell) :=
  [ [Some "Unit1"; Some "30"; Some "0"];
    [Some "Unit3"; Some "7"; Some "12"] ].

End Scenario.

(** ** A small election site *)

Module Cases.

(** [urljoin] on the links of the site: a relative link without dots
    replaces what follows the last slash of the base. *)
Fixpoint directory (base : string) : string :=
  match base with
  | EmptyString => EmptyString
  | String c rest =>
      if Str.contains "/" rest then String c (directory rest)
      else if Ascii.eqb c (Ascii.ascii_of_nat 47) then "/" else EmptyString
  end.

Definition urljoin (base : string) (href : option attr_val) : res string :=
  match href with
  | Some (AStr h) => Ok (directory base +:+ h)
  | Some (AList _) => Raise ValueError
  | None => Ok base
  end.

(** The landing page: a heading row, two districts (the second listed
    twice, in other letter case and with another target), and a row with
    too few links. *)
Definition cell_link (href text : string) : node :=
  Tag "td" ∅ [Scenario.link href text].

Definition district_row (code name href : string) : node :=
  Scenario.tr [ cell_link "ps" code; Scenario.td "name" name;
                cell_link "ps4" "X"; cell_link href "X" ].

Definition landing : node :=
  Scenario.document
    [ Scenario.table
        [ Scenario.tr [Scenario.th2 "kód"; Scenario.th2 "název"];
          district_row "CZ0100" " Praha " "ps32?xnumnuts=1100";
          district_row "CZ0201" "Benešov" "ps32?xnumnuts=0000";
          district_row "CZ0201" "BENEšov" "ps32?xnumnuts=2101";
          Scenario.tr [ cell_link "ps" "CZ0202"; Scenario.td "name" "Beroun" ] ] ].

Definition praha_url : string :=
  "https://www.volby.cz/pls/ps2017nss/ps32?xnumnuts=1100".

(** The network: the landing page, the page of Praha with the units of
    [Scenario.district_page], and one municipality page for all of them;
    [quiet] serves the first two only. *)
Definition unit_page (url : string) : bool :=
  String.prefix "https://www.volby.cz/pls/ps2017nss/ps311" url.

Definition network (url : string) : option node :=
  if String.eqb url home_url then Some landing
  else if String.eqb url praha_url then Some Scenario.district_page
  else if unit_page url then Some Scenario.party_page
  else None.

Definition quiet (url : string) : option node :=
  if unit_page url then None else network url.

(** Three units: the page of Alfa lists two parties, the page of Beta one
    of them twice, the page of Gama cannot be fetched. *)
Definition beta_page : node :=
  Scenario.document
    [ Scenario.turnout_table;
      Scenario.table [ Scenario.party_row "1" "Party A" "5";
                       Scenario.party_row "1" "Party A" "8" ] ].

Definition three_units : dict unit_data :=
  [ ("Alfa", UnitData "u/alfa" (Some "1"));
    ("Beta", UnitData "u/beta" (Some "2"));
    ("Gama", UnitData "u/gama" None) ].

Definition unit_pages (url : string) : option node :=
  if String.eqb url "u/alfa" then Some Scenario.party_page
  else if String.eqb url "u/beta" then Some beta_page
  else None.

End Cases.

(** * Properties *)

(** ** [str] methods *)

Example replace_csv :
  Str.replace "vysledky_district_a.csv" ".csv" "" = "vysledky_district_a".
Proof. reflexivity. Qed.

Example replace_overlap : Str.replace "aaa" "aa" "b" = "ba".
Proof. reflexivity. Qed.

Example strip_both : Ascii7.strip "  a b " = "a b".
Proof. reflexivity. Qed.

(** ** [validate_user_input] *)

Lemma contains_empty (s : string) : Str.contains EmptyString s = true.
Proof. destruct s; reflexivity. Qed.

Section ValidateFacts.

Variable lower : string → string.
Variable strip : string → string.

Lemma district_from_url_some user_url (districts : dict string) name url :
  (name, url) ∈ districts →
  strip user_url = strip url →
  is_Some (district_from_url lower strip user_url districts).
Proof.
  induction districts as [|[name' url'] rest IH]; intros Hin Heq.
  - by apply elem_of_nil in Hin.
  - cbn. destruct (String.eqb_spec (strip user_url) (strip url')); [by eexists|].
    apply elem_of_cons in Hin as [[= -> ->]|Hin]; [done|by apply IH].
Qed.

(** Past the guard on the file name and with the url found in the index,
    the outcome is decided by the containment test alone. *)
Lemma validate_decided user_url output_filename districts d :
  filename_ok lower output_filename = true →
  district_from_url lower strip user_url districts = Some d →
  validate_user_input lower strip user_url output_filename districts =
    if Str.contains (district_from_filename lower strip output_filename) d
    then Ok () else Raise (SystemExit 1).
Proof.
  intros Hok Hd. unfold validate_user_input. rewrite Hok, Hd. cbn.
  by destruct (Str.contains _ d).
Qed.

End ValidateFacts.

(** C2, as stated, fails on its first scenario: the file name
    [vysledky_district_a.csv] yields [district_a], which is not contained in
    the index key [district a], so the run ends with exit code 1. *)
Lemma validate_scenario_underscore_rejected :
  district_from_filename Ascii7.lower Ascii7.strip "vysledky_district_a.csv"
    = "district_a" ∧
  validate_user_input Ascii7.lower Ascii7.strip
    "https://x/a" "vysledky_district_a.csv" Scenario.districts
    = Raise (SystemExit 1) ∧
  validate_user_input Ascii7.lower Ascii7.strip
    "https://x/a" "vysledky_district_a.csv" Scenario.districts ≠ Ok ().
Proof. repeat split; [reflexivity..|discriminate]. Qed.

(** C2, amended: in the scenario the file name [vysledky_district a.csv]
    passes with the url of district a, and [vysledky_district_a.csv] ends the
    run with exit code 1 with the url of district b; in general, for a file
    name that passes the guard and a url found in the index, validation
    passes when the district text of the file name is contained in the
    lower-cased name of the first index entry with that url, and ends the
    run with exit code 1 otherwise. *)
Theorem validate_user_input_consistency :
  validate_user_input Ascii7.lower Ascii7.strip
    "https://x/a" "vysledky_district a.csv" Scenario.districts = Ok () ∧
  validate_user_input Ascii7.lower Ascii7.strip
    "https://x/b" "vysledky_district_a.csv" Scenario.districts
    = Raise (SystemExit 1) ∧
  ∀ (lower strip : string → string) user_url output_filename districts d,
    filename_ok lower output_filename = true →
    district_from_url lower strip user_url districts = Some d →
    (Str.contains (district_from_filename lower strip output_filename) d = true →
     validate_user_input lower strip user_url output_filename districts = Ok ()) ∧
    (Str.contains (district_from_filename lower strip output_filename) d = false →
     validate_user_input lower strip user_url output_filename districts
       = Raise (SystemExit 1)).
Proof.
  split; [reflexivity|]. split; [reflexivity|].
  intros lower strip user_url output_filename districts d Hok Hd.
  rewrite (validate_decided _ _ _ _ _ _ Hok Hd).
  by split; intros ->.
Qed.

(** The general part at a file name in capitals and a url with a blank. *)
Lemma validate_user_input_consistency_witness :
  filename_ok Ascii7.lower "Vysledky_District B.CSV" = true ∧
  district_from_url Ascii7.lower Ascii7.strip " https://x/b" Scenario.districts
    = Some "district b" ∧
  Str.contains
    (district_from_filename Ascii7.lower Ascii7.strip "Vysledky_District B.CSV")
    "district b" = true ∧
  validate_user_input Ascii7.lower Ascii7.strip
    " https://x/b" "Vysledky_District B.CSV" Scenario.districts = Ok ().
Proof.
  split; [reflexivity|]. split; [reflexivity|]. split; [reflexivity|].
  exact (proj1 (proj2 (proj2 validate_user_input_consistency)
                  Ascii7.lower Ascii7.strip " https://x/b"
                  "Vysledky_District B.CSV" Scenario.districts "district b"
                  eq_refl eq_refl) eq_refl).
Defined.

(** C9, as stated, fails when the file name does not pass the guard: the
    name [vysledky_] yields the empty district text and the url is in the
    index, yet the run ends with exit code 1. *)
Lemma validate_empty_district_bad_name :
  district_from_filename Ascii7.lower Ascii7.strip "vysledky_" = EmptyString ∧
  district_from_url Ascii7.lower Ascii7.strip "https://x/a" Scenario.districts
    = Some "district a" ∧
  validate_user_input Ascii7.lower Ascii7.strip
    "https://x/a" "vysledky_" Scenario.districts = Raise (SystemExit 1).
Proof. repeat split. Qed.

(** C9, amended: if the file name ends in [.csv] (in any case) and holds no
    quote, and the district text derived from it is empty, then for every
    url that matches a district of the index [validate_user_input] passes. *)
Theorem validate_empty_district_passes
    (lower strip : string → string) user_url output_filename
    (districts : dict string) name url :
  filename_ok lower output_filename = true →
  district_from_filename lower strip output_filename = EmptyString →
  (name, url) ∈ districts →
  strip user_url = strip url →
  validate_user_input lower strip user_url output_filename districts = Ok ().
Proof.
  intros Hok Hempty Hin Heq.
  destruct (district_from_url_some lower strip _ _ _ _ Hin Heq) as [d Hd].
  rewrite (validate_decided _ _ _ _ _ _ Hok Hd), Hempty.
  by rewrite contains_empty.
Qed.

(** The file name [vysledky_.csv] passes with the url of district b. *)
Lemma validate_empty_district_passes_witness :
  validate_user_input Ascii7.lower Ascii7.strip
    "https://x/b" "vysledky_.csv" Scenario.districts = Ok ().
Proof.
  apply (validate_empty_district_passes Ascii7.lower Ascii7.strip
           "https://x/b" "vysledky_.csv" Scenario.districts
           "district b" "https://x/b").
  - reflexivity.
  - reflexivity.
  - apply list_elem_of_further, list_elem_of_here.
  - reflexivity.
Defined.

(** ** [get_district_turnout_summary] *)

Section TurnoutFacts.

Variable strip : string → string.
Variable get_page_content : string → option node.

#[local] Abbreviation tables := (turnout_tables get_page_content).
#[local] Abbreviation row_of := (turnout_row strip get_page_content).

(** One turn of the loop, in terms of the table it finds. *)
Lemma turnout_loop_cons u rest headers rows :
  turnout_loop strip get_page_content (u :: rest) headers rows =
    match turnout_table get_page_content u.2 with
    | Some table =>
        turnout_loop strip get_page_content rest
          (Some (default (turnout_headers strip table) headers))
          (rows ++ [Some u.1 :: cislo_obce u.2
                    :: (Some <$> turnout_data_row strip table)])
    | None => turnout_loop strip get_page_content rest headers rows
    end.
Proof.
  destruct u as [district_unit data]. unfold turnout_table. cbn.
  destruct (get_page_content (url data)) as [soup|]; cbn; [|done].
  destruct (Soup.find "table" [] soup); [|done]. by destruct headers.
Qed.

(** The loop, read as a whole: the header comes from the first table of
    the run unless one is already set, and every unit with a table adds
    its row. *)
Lemma turnout_loop_spec units headers rows :
  turnout_loop strip get_page_content units headers rows =
    (match headers with
     | Some h => Some h
     | None => turnout_headers strip <$> head (tables units)
     end,
     rows ++ omap row_of units).
Proof.
  revert headers rows.
  induction units as [|u rest IH]; intros headers rows.
  - cbn. rewrite app_nil_r. by destruct headers.
  - rewrite turnout_loop_cons.
    assert (row_of u =
              (fun table => Some u.1 :: cislo_obce u.2
                            :: (Some <$> turnout_data_row strip table))
                <$> turnout_table get_page_content u.2) as Hrow by done.
    change (tables (u :: rest)) with
      (match turnout_table get_page_content u.2 with
       | Some t => t :: tables rest
       | None => tables rest
       end).
    change (omap row_of (u :: rest)) with
      (match row_of u with
       | Some r => r :: omap row_of rest
       | None => omap row_of rest
       end).
    rewrite Hrow.
    destruct (turnout_table get_page_content u.2) as [table|]; cbn.
    + rewrite IH, <- app_assoc. by destruct headers.
    + by rewrite IH.
Qed.

Lemma get_district_turnout_summary_spec units :
  get_district_turnout_summary strip get_page_content units =
    (turnout_headers strip <$> head (tables units), omap row_of units).
Proof. apply turnout_loop_spec. Qed.

(** Every collected row starts with the name, then the code, of a unit of
    the run. *)
Lemma turnout_row_prefix units row :
  row ∈ (get_district_turnout_summary strip get_page_content units).2 →
  ∃ district_unit data fields,
    (district_unit, data) ∈ units ∧
    row = Some district_unit :: cislo_obce data :: fields.
Proof.
  rewrite get_district_turnout_summary_spec. cbn.
  intros ([district_unit data] & Hin & Hrow)%list_elem_of_omap.
  unfold turnout_row in Hrow. cbn in Hrow.
  destruct (turnout_table _ data); [|done].
  injection Hrow as <-. eauto.
Qed.

Lemma turnout_rows_count units :
  length (omap row_of units) = length (tables units).
Proof.
  unfold turnout_tables, turnout_row.
  induction units as [|u rest IH]; [done|]. cbn.
  destruct (turnout_table get_page_content u.2); cbn; by rewrite IH.
Qed.

Lemma turnout_headers_length table :
  length (turnout_headers strip table) = 2 + (table_shape table).1.
Proof. unfold turnout_headers. cbn. by rewrite length_map. Qed.

Lemma turnout_row_length u row :
  row_of u = Some row →
  ∃ table, turnout_table get_page_content u.2 = Some table ∧
           length row = 2 + ((table_shape table).2 - 3).
Proof.
  unfold turnout_row. destruct (turnout_table _ _) as [table|]; [|done].
  intros [= <-]. exists table. split; [done|]. cbn.
  unfold turnout_data_row. by rewrite !length_map, length_drop.
Qed.

End TurnoutFacts.

(** C1 fails on the code: the header starts with ["Číslo obce"; "Obec"]
    while every row starts with the name and only then the code, so the
    field under "Číslo obce" is the unit's name and the field under "Obec"
    its code. *)
Theorem turnout_prefix_swapped :
  get_district_turnout_summary Ascii7.strip
    (Scenario.serve (Scenario.document [Scenario.turnout_table]))
    [Scenario.alfa]
  = (Some ["Číslo obce"; "Obec"; "Voličiv seznamu"; "Vydanéobálky"],
     [[Some "Alfa"; Some "500011"; Some "205"; Some "150"]]).
Proof. reflexivity. Qed.

(** C6, as stated, fails on a run of one page whose table has a two-row
    header cell and no numeric cell: every page has the shape of the first,
    and the header has three labels for a row of two fields. *)
Lemma turnout_header_longer_than_row :
  let get_page_content := Scenario.serve (Scenario.document [Scenario.bare_table]) in
  let units := [Scenario.alfa] in
  let result := get_district_turnout_summary Ascii7.strip get_page_content units in
  (∀ reference t,
     head (turnout_tables get_page_content units) = Some reference →
     t ∈ turnout_tables get_page_content units →
     table_shape t = table_shape reference) ∧
  result = (Some ["Číslo obce"; "Obec"; "Voličiv seznamu"],
            [[Some "Alfa"; Some "500011"]]) ∧
  ¬ (∀ headers, result.1 = Some headers →
       Forall (fun row => length row = length headers) result.2).
Proof.
  cbn zeta. split; [|split].
  - intros reference t [= <-] Ht. vm_compute in Ht.
    apply list_elem_of_singleton in Ht. by subst.
  - reflexivity.
  - intros H. specialize (H _ eq_refl).
    apply Forall_cons_1 in H as [H _]. vm_compute in H. discriminate.
Qed.

(** C6, amended: in every run in which the first table of each page that
    was fetched has exactly three more numeric cells than the reference
    (first) page's table has two-row header cells, a header is returned and
    its length equals the field count of every returned row; there is one
    row per such page. *)
Theorem turnout_header_length
    (strip : string → string) (get_page_content : string → option node)
    (units : dict unit_data) (reference : node) :
  head (turnout_tables get_page_content units) = Some reference →
  (∀ t, t ∈ turnout_tables get_page_content units →
        (table_shape t).2 = (table_shape reference).1 + 3) →
  ∃ headers rows,
    get_district_turnout_summary strip get_page_content units
      = (Some headers, rows) ∧
    length rows = length (turnout_tables get_page_content units) ∧
    Forall (fun row => length row = length headers) rows.
Proof.
  intros Href Hshape.
  rewrite get_district_turnout_summary_spec, Href. cbn.
  eexists _, _. split; [done|]. split.
  - apply turnout_rows_count.
  - apply Forall_forall. intros row (u & Hu & Hrow)%list_elem_of_omap.
    apply turnout_row_length in Hrow as (t & Ht & ->).
    rewrite turnout_headers_length.
    assert (t ∈ turnout_tables get_page_content units) as Hin.
    { apply list_elem_of_omap. eauto. }
    rewrite (Hshape _ Hin). lia.
Qed.

(** Two pages in the layout of the site: two rows of four fields under a
    header of four labels. *)
Lemma turnout_header_length_witness :
  ∃ headers rows,
    get_district_turnout_summary Ascii7.strip
      (Scenario.serve (Scenario.document [Scenario.turnout_table]))
      [Scenario.alfa; Scenario.alfa]
      = (Some headers, rows) ∧
    length rows = 2 ∧
    Forall (fun row => length row = length headers) rows.
Proof.
  apply (turnout_header_length Ascii7.strip
           (Scenario.serve (Scenario.document [Scenario.turnout_table]))
           [Scenario.alfa; Scenario.alfa] Scenario.turnout_table).
  - reflexivity.
  - intros t Ht. vm_compute in Ht.
    apply elem_of_cons in Ht as [->|Ht]; [reflexivity|].
    apply list_elem_of_singleton in Ht as ->. reflexivity.
Defined.

(** ** [dict] *)

Section DictFacts.

Context {V : Type}.
Implicit Types (d : dict V) (k : string) (v : V).

Lemma dict_get_set_eq k v d : dict_get k (dict_set k v d) = Some v.
Proof.
  induction d as [|[k' v'] d IH]; cbn.
  - by rewrite String.eqb_refl.
  - destruct (String.eqb_spec k k') as [->|Hne]; cbn.
    + by rewrite String.eqb_refl.
    + by destruct (String.eqb_spec k k').
Qed.

Lemma dict_get_set_ne k k' v d :
  k ≠ k' → dict_get k' (dict_set k v d) = dict_get k' d.
Proof.
  intros Hne. induction d as [|[k0 v0] d IH]; cbn.
  - by destruct (String.eqb_spec k' k) as [->|].
  - destruct (String.eqb_spec k k0) as [->|]; cbn.
    + by destruct (String.eqb_spec k' k0) as [->|].
    + by rewrite IH.
Qed.

Lemma dict_keys_set k v d :
  dict_keys (dict_set k v d) =
    if bool_decide (k ∈ dict_keys d) then dict_keys d else dict_keys d ++ [k].
Proof.
  unfold dict_keys. induction d as [|[k0 v0] d IH]; cbn; [done|].
  destruct (String.eqb_spec k k0) as [->|Hne]; cbn.
  - rewrite bool_decide_eq_true_2; [done|]. apply list_elem_of_here.
  - rewrite IH. case_bool_decide as Hin.
    + rewrite bool_decide_eq_true_2; [done|]. by apply list_elem_of_further.
    + rewrite bool_decide_eq_false_2; [done|].
      by intros [?|?]%elem_of_cons.
Qed.

Lemma dict_set_NoDup k v d :
  NoDup (dict_keys d) → NoDup (dict_keys (dict_set k v d)).
Proof.
  intros Hd. rewrite dict_keys_set. case_bool_decide as Hin; [done|].
  apply NoDup_app. split; [done|]. split.
  - by intros x Hx ->%list_elem_of_singleton.
  - apply NoDup_singleton.
Qed.

(** In a dict, the entries under a key are the one [dict_get] finds. *)
Lemma dict_entries_of_key k v d :
  NoDup (dict_keys d) →
  dict_get k d = Some v →
  filter (fun kv => kv.1 = k) d = [(k, v)].
Proof.
  unfold dict_keys. induction d as [|[k0 v0] d IH]; [done|].
  cbn [dict_get fmap list_fmap fst].
  intros [Hnin Hd]%NoDup_cons.
  destruct (String.eqb_spec k k0) as [->|Hne].
  - intros [= ->]. rewrite filter_cons_True by done. f_equal.
    clear IH Hd. induction d as [|[k1 v1] d IH]; [done|].
    cbn [fmap list_fmap fst] in Hnin. rewrite filter_cons_False.
    + apply IH. intros Hin. by apply Hnin, list_elem_of_further.
    + cbn. intros ->. apply Hnin, list_elem_of_here.
  - intros Hget. rewrite filter_cons_False by (cbn; congruence). by apply IH.
Qed.

(** Assignments in a row: the last one to a key is the one that stays. *)
Lemma assign_all_NoDup d entries :
  NoDup (dict_keys d) → NoDup (dict_keys (assign_all d entries)).
Proof.
  unfold assign_all.
  revert d. induction entries as [|e entries IH]; intros d Hd; [done|].
  cbn. by apply IH, dict_set_NoDup.
Qed.

Lemma assign_all_get_untouched d entries k :
  k ∉ entries.*1 → dict_get k (assign_all d entries) = dict_get k d.
Proof.
  unfold assign_all.
  revert d. induction entries as [|[k' v'] entries IH]; intros d Hnin; [done|].
  cbn in *. rewrite IH.
  - apply dict_get_set_ne. intros ->. apply Hnin, list_elem_of_here.
  - intros Hin. by apply Hnin, list_elem_of_further.
Qed.

Lemma assign_all_last d before k v after :
  k ∉ after.*1 →
  dict_get k (assign_all d (before ++ (k, v) :: after)) = Some v.
Proof.
  intros Hnin. unfold assign_all. rewrite foldl_app. cbn.
  fold (assign_all (dict_set k v (foldl (fun d e => dict_set e.1 e.2 d) d before)) after).
  rewrite assign_all_get_untouched by done. apply dict_get_set_eq.
Qed.

End DictFacts.

(** ** [extract_district_units] *)

Section ExtractFacts.

Variable strip : string → string.
Variable urljoin : string → option attr_val → res string.
Variable xobec_of : string → res (option string).

#[local] Abbreviation unit_of_row :=
  (district_unit_of_row strip urljoin xobec_of).

(** When the url functions accept the link of every row, the loop is a
    row of assignments, one per qualifying row. *)
Lemma extract_rows_spec base_url rows district_units entries :
  mapM (unit_of_row base_url) rows = Ok entries →
  extract_rows strip urljoin xobec_of base_url rows district_units =
    Ok (assign_all district_units (omap id entries)).
Proof.
  revert district_units entries.
  induction rows as [|row rest IH]; intros district_units entries.
  - by intros [= <-].
  - cbn. destruct (unit_of_row base_url row) as [e|]; cbn; [|done].
    destruct (mapM (unit_of_row base_url) rest) as [es|]; cbn; [|done].
    intros [= <-]. destruct e as [[name data]|]; cbn; by apply IH.
Qed.

End ExtractFacts.

(** C10: when the page has rows with the same municipality name, the
    returned dict has exactly one entry for that name, holding the url and
    code of the last such row in document order; the rows being duplicates
    raises nothing: the function returns whenever the url functions accept
    each row's link. *)
Theorem extract_duplicate_names_last_wins
    (strip : string → string)
    (urljoin : string → option attr_val → res string)
    (xobec_of : string → res (option string))
    (soup : node) (base_url : string)
    (entries : list (option (string * unit_data))) :
  mapM (district_unit_of_row strip urljoin xobec_of base_url)
       (Soup.find_all "tr" [] soup) = Ok entries →
  ∃ district_units,
    extract_district_units strip urljoin xobec_of soup base_url
      = Ok district_units ∧
    ∀ before name data after,
      omap id entries = before ++ (name, data) :: after →
      name ∉ after.*1 →
      filter (fun kv => kv.1 = name) district_units = [(name, data)].
Proof.
  intros Hrows. unfold extract_district_units.
  rewrite (extract_rows_spec _ _ _ _ _ _ _ Hrows).
  eexists. split; [done|].
  intros before name data after -> Hlast.
  apply dict_entries_of_key.
  - apply assign_all_NoDup, NoDup_nil_2.
  - by apply assign_all_last.
Qed.

(** On [Scenario.district_page] the entry of Alfa is that of its second
    row, the third of the table. *)
Lemma extract_duplicate_names_last_wins_witness :
  ∃ district_units,
    extract_district_units Ascii7.strip Scenario.urljoin Scenario.xobec_of
      Scenario.district_page "https://x/ps32" = Ok district_units ∧
    filter (fun kv => kv.1 = "Alfa") district_units
      = [("Alfa", UnitData "https://x/ps311?xobec=3" (Some "3"))].
Proof.
  destruct (extract_duplicate_names_last_wins Ascii7.strip Scenario.urljoin
              Scenario.xobec_of Scenario.district_page "https://x/ps32"
              [ None;
                Some ("Alfa", UnitData "https://x/ps311?xobec=1" (Some "1"));
                Some ("Beta", UnitData "https://x/ps311?xobec=2" (Some "2"));
                Some ("Alfa", UnitData "https://x/ps311?xobec=3" (Some "3")) ])
    as (district_units & Hreturns & Hlast).
  - vm_compute. reflexivity.
  - exists district_units. split; [exact Hreturns|].
    apply (Hlast
             [ ("Alfa", UnitData "https://x/ps311?xobec=1" (Some "1"));
               ("Beta", UnitData "https://x/ps311?xobec=2" (Some "2")) ]
             "Alfa" _ []).
    + reflexivity.
    + apply not_elem_of_nil.
Defined.

(** ** [sorted] *)

Lemma insert_by_number_perm x l : insert_by_number x l ≡ₚ x :: l.
Proof.
  induction l as [|y l IH]; cbn; [done|].
  destruct (x.1 <=? y.1)%Z; [done|].
  rewrite IH. apply Permutation_swap.
Qed.

Lemma sorted_by_number_perm l : sorted_by_number l ≡ₚ l.
Proof.
  induction l as [|x l IH]; cbn; [done|].
  fold (sorted_by_number l). by rewrite insert_by_number_perm, IH.
Qed.

Lemma insert_by_number_sorted x l :
  StronglySorted number_le l → StronglySorted number_le (insert_by_number x l).
Proof.
  induction 1 as [|y l Hl IH Hy]; cbn.
  - repeat constructor.
  - destruct (Z.leb_spec x.1 y.1) as [Hle|Hlt].
    + constructor; [by constructor|].
      constructor; [done|].
      eapply Forall_impl; [exact Hy|]. unfold number_le. cbn. lia.
    + constructor; [done|].
      rewrite insert_by_number_perm. constructor; [|done].
      unfold number_le. lia.
Qed.

Lemma sorted_by_number_sorted l : StronglySorted number_le (sorted_by_number l).
Proof.
  induction l as [|x l IH]; cbn; [constructor|].
  by apply insert_by_number_sorted.
Qed.

Lemma sorted_numbers_le l :
  StronglySorted number_le l → StronglySorted Z.le l.*1.
Proof.
  induction 1 as [|y l Hl IH Hy]; cbn; constructor; [done|].
  by apply Forall_fmap.
Qed.

Lemma sorted_distinct_lt (l : list Z) :
  StronglySorted Z.le l → NoDup l → StronglySorted Z.lt l.
Proof.
  induction 1 as [|y l Hl IH Hy]; [constructor|].
  intros [Hnin Hnd]%NoDup_cons. constructor; [by apply IH|].
  apply Forall_forall. intros z Hz.
  rewrite Forall_forall in Hy. specialize (Hy z Hz).
  assert (y ≠ z) by (by intros ->). lia.
Qed.

(** ** [get_district_party_results] *)

Section PartyFacts.

Variable strip : string → string.
Variable int : string → option Z.
Variable get_page_content : string → option node.

#[local] Abbreviation fields := (row_fields strip).
#[local] Abbreviation numbers l := (list_to_set (C := gset string) l.*1.*1).

Lemma first_seen_app seen l1 l2 :
  first_seen seen (l1 ++ l2) =
    first_seen seen l1 ++ first_seen (seen ∪ numbers l1) l2.
Proof.
  revert seen. induction l1 as [|[[number name] votes] l1 IH]; intros seen; cbn.
  - f_equal. set_solver.
  - case_bool_decide as Hin.
    + rewrite IH. do 2 f_equal. set_solver.
    + cbn. rewrite IH. do 3 f_equal. set_solver.
Qed.

Lemma numbered_app v1 v2 vocab :
  numbered int (v1 ++ v2) = Some vocab →
  ∃ vocab1 vocab2, vocab = vocab1 ++ vocab2 ∧
    numbered int v1 = Some vocab1 ∧ numbered int v2 = Some vocab2.
Proof.
  unfold numbered. revert vocab.
  induction v1 as [|[number name] v1 IH]; intros vocab; cbn.
  - intros H. by exists [], vocab.
  - destruct (int number) as [n|]; cbn; [|done].
    destruct (mapM _ (v1 ++ v2)) as [vs|] eqn:Hvs; cbn; [|done].
    intros [= <-]. destruct (IH _ eq_refl) as (vocab1 & vocab2 & -> & -> & ->).
    by exists ((n, name) :: vocab1), vocab2.
Qed.

(** The rows of a table leave the names and votes in [results] and add
    the numbers not seen before to the vocabulary, each read by [int]. *)
Lemma party_rows_spec rows results plist seen vocab :
  numbered int (first_seen seen (omap fields rows)) = Some vocab →
  ∃ results',
    party_rows strip int rows (results, plist, seen) =
      Ok (results', plist ++ vocab, seen ∪ numbers (omap fields rows)).
Proof.
  revert results plist seen vocab.
  induction rows as [|row rest IH]; intros results plist seen vocab.
  - cbn. intros [= <-]. exists results. rewrite app_nil_r.
    do 2 f_equal. set_solver.
  - cbn [party_rows omap list_omap]. unfold party_row.
    destruct (fields row) as [[[number name] votes]|]; cbn [first_seen].
    + case_bool_decide as Hin.
      * intros Hv. destruct (IH (<[name:=votes]> results) plist seen vocab Hv)
          as [results' Hr].
        exists results'. cbn. rewrite Hr. do 2 f_equal. set_solver.
      * unfold numbered. cbn.
        destruct (int number) as [n|]; cbn; [|done].
        destruct (mapM _ _) as [vs|] eqn:Hv; cbn; [|done].
        intros [= <-].
        destruct (IH (<[name:=votes]> results) (plist ++ [(n, name)])
                     ({[number]} ∪ seen) vs Hv) as [results' Hr].
        exists results'. rewrite Hr, <- app_assoc. cbn.
        do 2 f_equal. set_solver.
    + intros Hv. destruct (IH results plist seen vocab Hv) as [results' Hr].
      exists results'. cbn. by rewrite Hr.
Qed.

Lemma party_rows_app rows1 rows2 st :
  party_rows strip int (rows1 ++ rows2) st =
    party_rows strip int rows1 st ≫= party_rows strip int rows2.
Proof.
  revert st. induction rows1 as [|row rows1 IH]; intros st; cbn; [done|].
  destruct (party_row strip int row st); cbn; [apply IH|done].
Qed.

(** The loop over the tables is the loop over their rows, in order. *)
Lemma party_tables_flat tables st :
  party_tables strip int tables st =
    party_rows strip int (tables ≫= Soup.find_all "tr" []) st.
Proof.
  revert st. induction tables as [|table rest IH]; intros st; cbn; [done|].
  rewrite party_rows_app.
  destruct (party_rows strip int (Soup.find_all "tr" [] table) st); cbn;
    [apply IH|done].
Qed.

(** The loop over the units: the vocabulary grows by the numbers first
    seen on the pages of the run. *)
Lemma party_loop_spec units st vocab :
  numbered int
    (first_seen (seen_parties st) (encountered strip get_page_content units))
    = Some vocab →
  ∃ st',
    party_loop strip int get_page_content units st = Ok st' ∧
    party_list st' = party_list st ++ vocab.
Proof.
  revert st vocab.
  induction units as [|[district_unit data] rest IH]; intros st vocab.
  - cbn. intros [= <-]. exists st. by rewrite app_nil_r.
  - unfold encountered. cbn [mbind list_bind snd].
    fold (encountered strip get_page_content rest).
    rewrite first_seen_app.
    intros (vocab1 & vocab2 & -> & Hv1 & Hv2)%numbered_app.
    cbn [party_loop]. unfold page_rows in Hv1, Hv2.
    destruct (get_page_content (url data)) as [soup|].
    + destruct (drop 1 (Soup.find_all "table" [] soup)) as [|table tables] eqn:Ht.
      * cbn in Hv1, Hv2. injection Hv1 as <-.
        assert (seen_parties st ∪ ∅ = seen_parties st) as Heq by set_solver.
        rewrite Heq in Hv2. by apply IH.
      * rewrite party_tables_flat.
        destruct (party_rows_spec _ ∅ (party_list st) _ _ Hv1) as [results' ->].
        cbn. rewrite app_assoc.
        match goal with
        | |- ∃ st', party_loop _ _ _ _ ?s = _ ∧ _ =>
            destruct (IH s vocab2 Hv2) as (st' & Hst' & Hlist)
        end.
        exists st'. split; [done|]. by rewrite Hlist.
    + cbn in Hv1, Hv2. injection Hv1 as <-.
      assert (seen_parties st ∪ ∅ = seen_parties st) as Heq by set_solver.
      rewrite Heq in Hv2. by apply IH.
Qed.

End PartyFacts.

(** C4 fails on the code: a row of three cells whose name and votes are
    filled in and whose first cell is no numeral reaches [int], and the
    [ValueError] it raises ends the collector and with it the run. *)
Theorem party_results_abort_on_number :
  row_fields Ascii7.strip (Scenario.party_row "A2" "Party B" "10")
    = Some ("A2", "Party B", "10") ∧
  get_district_party_results Ascii7.strip Ascii7.int
    (Scenario.serve Scenario.party_page_no_numeral) [Scenario.alfa]
    = Raise ValueError.
Proof. split; reflexivity. Qed.

(** C5, as stated, fails when two number texts denote one number: with the
    rows [1, Party A] and [01, Party B] the vocabulary holds both parties
    under the number 1, the header lists both names, and no arrangement of
    the vocabulary has strictly ascending numbers. *)
Lemma party_header_not_strictly_ascending :
  let units := [Scenario.alfa] in
  let get_page_content := Scenario.serve Scenario.party_page_two_texts in
  let vocabulary := [(1%Z, "Party A"); (1%Z, "Party B")] in
  numbered Ascii7.int
    (first_seen ∅ (encountered Ascii7.strip get_page_content units))
    = Some vocabulary ∧
  get_district_party_results Ascii7.strip Ascii7.int get_page_content units
    = Ok (["Obec"; "Party A"; "Party B"],
          [[Some "Alfa"; Some "20"; Some "10"]]) ∧
  ¬ ∃ ordered, ordered ≡ₚ vocabulary ∧ StronglySorted Z.lt ordered.*1.
Proof.
  cbn zeta. split; [reflexivity|]. split; [reflexivity|].
  intros (ordered & Hperm & Hsorted).
  assert (Forall (fun p => p.1 = 1%Z) ordered) as Hall.
  { rewrite Hperm. by repeat constructor. }
  apply Permutation_length in Hperm.
  destruct ordered as [|a [|b [|c ordered]]]; try done.
  apply Forall_cons_1 in Hall as [Ha Hall].
  apply Forall_cons_1 in Hall as [Hb _].
  cbn in Hsorted. rewrite Ha, Hb in Hsorted.
  apply StronglySorted_inv in Hsorted as [_ Hlt].
  apply Forall_cons_1 in Hlt as [Hlt _]. lia.
Qed.

(** C5, amended: for every sequence of processed units whose first-seen
    party numbers are all accepted by [int], the collector returns, and its
    header is ["Obec"] followed by the names of the vocabulary (accumulated
    across all units in encounter order, deduplicated by the text of the
    party number) in ascending order of the numbers; the order is strictly
    ascending when no two entries of the vocabulary have the same number. *)
Theorem party_header_ascending
    (strip : string → string) (int : string → option Z)
    (get_page_content : string → option node)
    (units : dict unit_data) (vocabulary : list (Z * string)) :
  numbered int (first_seen ∅ (encountered strip get_page_content units))
    = Some vocabulary →
  ∃ ordered rows,
    get_district_party_results strip int get_page_content units
      = Ok ("Obec" :: ordered.*2, rows) ∧
    ordered ≡ₚ vocabulary ∧
    StronglySorted Z.le ordered.*1 ∧
    (NoDup vocabulary.*1 → StronglySorted Z.lt ordered.*1).
Proof.
  intros Hvocabulary.
  destruct (party_loop_spec strip int get_page_content units
              (PartyState [] ∅ []) vocabulary Hvocabulary)
    as (st & Hloop & Hlist).
  cbn in Hlist. exists (sorted_by_number vocabulary).
  unfold get_district_party_results. rewrite Hloop. cbn.
  unfold party_names_ordered. rewrite Hlist.
  eexists. split; [done|].
  assert (StronglySorted Z.le (sorted_by_number vocabulary).*1) as Hsorted
    by apply sorted_numbers_le, sorted_by_number_sorted.
  split; [apply sorted_by_number_perm|]. split; [done|].
  intros Hdistinct. apply sorted_distinct_lt; [done|].
  by rewrite sorted_by_number_perm.
Qed.

(** Two units served [Scenario.party_page]: Party B is met first and
    listed second. *)
Lemma party_header_ascending_witness :
  ∃ ordered rows,
    get_district_party_results Ascii7.strip Ascii7.int
      (Scenario.serve Scenario.party_page) [Scenario.alfa; Scenario.alfa]
      = Ok ("Obec" :: ordered.*2, rows) ∧
    ordered ≡ₚ [(2%Z, "Party B"); (1%Z, "Party A")] ∧
    StronglySorted Z.le ordered.*1 ∧
    (NoDup [2%Z; 1%Z] → StronglySorted Z.lt ordered.*1).
Proof.
  apply (party_header_ascending Ascii7.strip Ascii7.int
           (Scenario.serve Scenario.party_page) [Scenario.alfa; Scenario.alfa]
           [(2%Z, "Party B"); (1%Z, "Party A")]).
  reflexivity.
Defined.

(** ** [merge_two_tables] *)

Section FilterFacts.

Context {A : Type} (P : A → Prop) `{!∀ x, Decision (P x)}.

Lemma filter_all (l : list A) : Forall P l → filter P l = l.
Proof.
  induction 1 as [|x l Hx Hl IH]; [done|].
  by rewrite filter_cons_True, IH.
Qed.

Lemma filter_none (l : list A) : Forall (fun x => ¬ P x) l → filter P l = [].
Proof.
  induction 1 as [|x l Hx Hl IH]; [done|].
  by rewrite filter_cons_False.
Qed.

End FilterFacts.

Module PandasFacts.
Import Pandas.

(** Rows that fit the header are taken as they are. *)
Lemma of_rows_fit rows headers :
  Forall (fun row => length row = length headers) rows →
  of_rows rows headers = Ok (Frame headers rows).
Proof.
  intros Hfit. destruct rows as [|row rows]; [done|].
  unfold of_rows, width.
  assert (max_list (length <$> row :: rows) = length headers) as ->.
  { pose proof (max_list_elem_of (length <$> row :: rows)) as Hmax.
    destruct (list_elem_of_fmap_1 _ _ _ (Hmax ltac:(done))) as (r & -> & Hr).
    rewrite Forall_forall in Hfit. by apply Hfit. }
  rewrite Nat.eqb_refl. do 2 f_equal.
  induction Hfit as [|r rs Hr Hrs IH]; [done|]. cbn. f_equal; [|done].
  unfold fill. by rewrite Hr, Nat.sub_diag, app_nil_r.
Qed.

Lemma index_of_lookup key cols i :
  index_of key cols = Some i → cols !! i = Some key.
Proof.
  revert i. induction cols as [|c cols IH]; intros i; cbn; [done|].
  destruct (String.eqb_spec c key) as [->|].
  - by intros [= <-].
  - destruct (index_of key cols); [|done]. intros [= <-]. by apply IH.
Qed.

Lemma key_index_Ok key cols i :
  key_index key cols = Ok i → index_of key cols = Some i.
Proof.
  unfold key_index. destruct (index_of key cols); [|done].
  by case_bool_decide; [|intros [= ->]].
Qed.

(** The keys of the join: each key of either table, once. *)
Lemma key_insert_perm k l : key_insert k l ≡ₚ k :: l.
Proof.
  induction l as [|k' l IH]; cbn; [done|].
  destruct (key_leb k k'); [done|]. rewrite IH. apply Permutation_swap.
Qed.

Lemma elem_of_key_add k x l : k ∈ key_add x l ↔ k = x ∨ k ∈ l.
Proof.
  unfold key_add. case_bool_decide as Hin.
  - split; [by right|]. by intros [->|].
  - rewrite key_insert_perm. apply elem_of_cons.
Qed.

Lemma elem_of_sorted_keys k ks : k ∈ sorted_keys ks ↔ k ∈ ks.
Proof.
  induction ks as [|x ks IH]; cbn; [done|].
  fold (sorted_keys ks). by rewrite elem_of_key_add, IH, elem_of_cons.
Qed.

Lemma NoDup_sorted_keys ks : NoDup (sorted_keys ks).
Proof.
  induction ks as [|x ks IH]; cbn; [constructor|].
  fold (sorted_keys ks). unfold key_add. case_bool_decide as Hin; [done|].
  rewrite key_insert_perm. by constructor.
Qed.

(** Every row the join gives for a key carries that key. *)
Lemma joined_has_key i j w1 w2 L R k row :
  i < w1 →
  row ∈ joined i j w1 w2 L R k →
  has_key i k row.
Proof.
  intros Hi. unfold joined.
  assert (∀ l (rest : list cell),
            l ∈ filter (has_key i k) L → has_key i k (l ++ rest)) as Hleft.
  { intros l rest [Hl _]%list_elem_of_filter. by apply lookup_app_l_Some. }
  destruct (filter (has_key i k) L) as [|l0 Lk] eqn:HL.
  - intros (r & -> & _)%list_elem_of_fmap.
    apply lookup_app_l_Some, list_lookup_insert_eq.
    by rewrite length_replicate.
  - destruct (filter (has_key j k) R) as [|r0 Rk] eqn:HR.
    + intros (l & -> & Hl)%list_elem_of_fmap. by apply Hleft.
    + intros (l & (r & -> & _)%list_elem_of_fmap & Hl)%list_elem_of_bind.
      by apply Hleft.
Qed.

(** Among rows grouped by key, the rows of one key are its group. *)
Lemma filter_groups i k (keys : list cell) (group : cell → list (list cell)) :
  NoDup keys →
  (∀ k' row, row ∈ group k' → has_key i k' row) →
  filter (has_key i k) (keys ≫= group) =
    if bool_decide (k ∈ keys) then group k else [].
Proof.
  intros Hnd Hgroup. induction Hnd as [|k' keys Hnin Hnd IH].
  - done.
  - rewrite bind_cons, filter_app, IH.
    destruct (decide (k = k')) as [->|Hne].
    + rewrite (bool_decide_eq_false_2 (k' ∈ keys)) by done.
      rewrite (bool_decide_eq_true_2 (k' ∈ k' :: keys))
        by apply list_elem_of_here.
      rewrite app_nil_r. apply filter_all, Forall_forall.
      intros row. apply Hgroup.
    + rewrite (filter_none (has_key i k) (group k')).
      * cbn. rewrite (bool_decide_ext (k ∈ k' :: keys) (k ∈ keys)); [done|].
        rewrite elem_of_cons. naive_solver.
      * apply Forall_forall. intros row Hrow%Hgroup.
        unfold has_key in *. congruence.
Qed.

End PandasFacts.

Module MergeFacts.
Import Pandas PandasFacts.

Lemma merge_outer_inv left right key df i j :
  merge_outer left right key = Ok df →
  index_of key (columns left) = Some i →
  index_of key (columns right) = Some j →
  let shared := overlap (columns left) (delete j (columns right)) key in
  columns df = (suffixed shared "_x" <$> columns left)
               ++ (suffixed shared "_y" <$> delete j (columns right)) ∧
  values df =
    sorted_keys (key_column i (values left) ++ key_column j (values right))
    ≫= joined i j (length (columns left)) (length (columns right))
              (values left) (values right).
Proof.
  unfold merge_outer. intros Hmerge Hi Hj.
  destruct (key_index key (columns right)) as [j'|] eqn:Hj'; [|done].
  apply key_index_Ok in Hj'. rewrite Hj in Hj'. injection Hj' as <-.
  cbn in Hmerge.
  destruct (key_index key (columns left)) as [i'|] eqn:Hi'; [|done].
  apply key_index_Ok in Hi'. rewrite Hi in Hi'. injection Hi' as <-.
  cbn in Hmerge. destruct (_ || _); [done|]. by injection Hmerge as <-.
Qed.

(** A key no row of the right table carries: its rows in the join are the
    left rows that carry it, completed with missing values. *)
Lemma merge_outer_left_only left right key df i j k :
  merge_outer left right key = Ok df →
  index_of key (columns left) = Some i →
  index_of key (columns right) = Some j →
  filter (has_key j k) (values right) = [] →
  filter (has_key i k) (values df) =
    (fun l => l ++ replicate (length (columns right) - 1) None)
      <$> filter (has_key i k) (values left).
Proof.
  intros Hmerge Hi Hj Hright.
  destruct (merge_outer_inv _ _ _ _ _ _ Hmerge Hi Hj) as [_ ->].
  assert (i < length (columns left)) as Hlt
    by (eapply lookup_lt_Some, index_of_lookup, Hi).
  rewrite filter_groups;
    [|apply NoDup_sorted_keys|intros k' row; by apply joined_has_key].
  case_bool_decide as Hin.
  - unfold joined. rewrite Hright.
    by destruct (filter (has_key i k) (values left)).
  - rewrite filter_none; [done|].
    apply Forall_forall. intros l Hl Hk. apply Hin.
    rewrite elem_of_sorted_keys, elem_of_app. left.
    unfold key_column. apply list_elem_of_fmap. exists l. split; [|done].
    unfold has_key in Hk. by rewrite Hk.
Qed.

(** A key no row of the left table carries: its rows in the join are the
    right rows that carry it, behind missing values and the key. *)
Lemma merge_outer_right_only left right key df i j k :
  merge_outer left right key = Ok df →
  index_of key (columns left) = Some i →
  index_of key (columns right) = Some j →
  filter (has_key i k) (values left) = [] →
  filter (has_key i k) (values df) =
    (fun r => <[i:=k]> (replicate (length (columns left)) None) ++ delete j r)
      <$> filter (has_key j k) (values right).
Proof.
  intros Hmerge Hi Hj Hleft.
  destruct (merge_outer_inv _ _ _ _ _ _ Hmerge Hi Hj) as [_ ->].
  assert (i < length (columns left)) as Hlt
    by (eapply lookup_lt_Some, index_of_lookup, Hi).
  rewrite filter_groups;
    [|apply NoDup_sorted_keys|intros k' row; by apply joined_has_key].
  case_bool_decide as Hin.
  - unfold joined. by rewrite Hleft.
  - rewrite filter_none; [done|].
    apply Forall_forall. intros r Hr Hk. apply Hin.
    rewrite elem_of_sorted_keys, elem_of_app. right.
    unfold key_column. apply list_elem_of_fmap. exists r. split; [|done].
    unfold has_key in Hk. by rewrite Hk.
Qed.

(** With rows that fit their headers, [merge_two_tables] is the join of
    the two tables as given, the first with its labels renamed. *)
Lemma merge_two_tables_fit headers1 rows1 headers2 rows2 :
  Forall (fun row => length row = length headers1) rows1 →
  Forall (fun row => length row = length headers2) rows2 →
  merge_two_tables (Some headers1) rows1 (Some headers2) rows2 =
    merge_outer (Frame (renamed column_renames <$> headers1) rows1)
                (Frame headers2 rows2) "Obec".
Proof.
  intros Hfit1 Hfit2. unfold merge_two_tables.
  by rewrite (of_rows_fit _ _ Hfit1), (of_rows_fit _ _ Hfit2).
Qed.

(** The labels of the result, whatever the rows. *)
Lemma merge_two_tables_columns headers1 rows1 headers2 rows2 df j :
  merge_two_tables (Some headers1) rows1 (Some headers2) rows2 = Ok df →
  index_of "Obec" headers2 = Some j →
  let shared :=
    overlap (renamed column_renames <$> headers1) (delete j headers2) "Obec" in
  columns df =
    (suffixed shared "_x" <$> (renamed column_renames <$> headers1))
    ++ (suffixed shared "_y" <$> delete j headers2).
Proof.
  unfold merge_two_tables. intros Hmerge Hj.
  destruct (of_rows rows1 headers1) as [df1|] eqn:H1; [|done].
  destruct (of_rows rows2 headers2) as [df2|] eqn:H2; [|done].
  cbn in Hmerge.
  assert (columns df1 = headers1) as Hc1.
  { unfold of_rows in H1. destruct rows1; [by injection H1 as <-|].
    destruct (_ =? _); [by injection H1 as <-|done]. }
  assert (columns df2 = headers2) as Hc2.
  { unfold of_rows in H2. destruct rows2; [by injection H2 as <-|].
    destruct (_ =? _); [by injection H2 as <-|done]. }
  destruct (index_of "Obec" (columns (rename column_renames df1)))
    as [i|] eqn:Hi.
  - destruct (merge_outer_inv _ _ _ _ i j Hmerge Hi) as [Hcols _].
    { by rewrite Hc2. }
    cbn in Hcols. by rewrite Hc1, Hc2 in Hcols.
  - unfold merge_outer, key_index in Hmerge. rewrite Hi in Hmerge.
    by destruct (match index_of "Obec" (columns df2) with
                 | Some _ => _ | None => _ end).
Qed.

End MergeFacts.

(** C3, as stated, fails: Unit2 is in the turnout rows and not in the party
    rows, and in the merged output its party columns are missing values,
    not ["0"]. *)
Lemma merge_absent_party_not_zero :
  merge_two_tables (Some Scenario.turnout_header) Scenario.turnout_rows
                   (Some Scenario.party_header) Scenario.party_rows
  = Ok (Frame ["Obec"; "Číslo obce"; "Voliči v seznamu"; "Party X"; "Party Y"]
          [ [Some "Unit1"; Some "001"; Some "100"; Some "30"; Some "0"];
            [Some "Unit2"; Some "002"; Some "50"; None; None];
            [Some "Unit3"; None; None; Some "7"; Some "12"] ]) ∧
  ¬ ∀ df row,
      merge_two_tables (Some Scenario.turnout_header) Scenario.turnout_rows
                       (Some Scenario.party_header) Scenario.party_rows = Ok df →
      row ∈ values df → Pandas.has_key 0 (Some "Unit2") row →
      row !! 3 = Some (Some "0").
Proof.
  split; [reflexivity|]. intros H.
  specialize (H _ [Some "Unit2"; Some "002"; Some "50"; None; None] eq_refl).
  discriminate H.
  - apply list_elem_of_further, list_elem_of_here.
  - reflexivity.
Qed.

(** C3, amended: for tables whose rows fit their headers, a municipality
    that keys a turnout row and no party row has its row in the merged
    output, and in every such row each column that comes from the party
    table is a missing value (an empty field of the CSV); ["0"] is only what
    the party collector itself writes for a party a processed page did not
    list. *)
Theorem merge_absent_party_columns_missing
    (headers1 headers2 : list string) (rows1 rows2 : list (list cell))
    (df : DataFrame) (i j : nat) (k : cell) (l : list cell) :
  Forall (fun row => length row = length headers1) rows1 →
  Forall (fun row => length row = length headers2) rows2 →
  merge_two_tables (Some headers1) rows1 (Some headers2) rows2 = Ok df →
  Pandas.index_of "Obec" (Pandas.renamed column_renames <$> headers1) = Some i →
  Pandas.index_of "Obec" headers2 = Some j →
  l ∈ rows1 → Pandas.has_key i k l →
  filter (Pandas.has_key j k) rows2 = [] →
  l ++ replicate (length headers2 - 1) None ∈ values df ∧
  ∀ row, row ∈ values df → Pandas.has_key i k row →
    ∀ p, p < length headers2 - 1 → row !! (length headers1 + p) = Some None.
Proof.
  intros Hfit1 Hfit2 Hmerge Hi Hj Hl Hk Habsent.
  rewrite MergeFacts.merge_two_tables_fit in Hmerge by done.
  pose proof (MergeFacts.merge_outer_left_only _ _ _ _ _ _ k Hmerge Hi Hj Habsent)
    as Hrows.
  cbn in Hrows. split.
  - eapply list_elem_of_filter. rewrite Hrows.
    apply list_elem_of_fmap. exists l. split; [done|].
    by apply list_elem_of_filter.
  - intros row Hrow Hkey p Hp.
    assert (row ∈ filter (Pandas.has_key i k) (values df)) as Hin
      by by apply list_elem_of_filter.
    rewrite Hrows in Hin.
    apply list_elem_of_fmap in Hin as (l' & -> & [_ Hl']%list_elem_of_filter).
    rewrite Forall_forall in Hfit1.
    rewrite lookup_app_r by (rewrite (Hfit1 _ Hl'); lia).
    rewrite (Hfit1 _ Hl'). apply lookup_replicate_2. lia.
Qed.

(** Unit2 of [Scenario.turnout_rows] has no party row. *)
Lemma merge_absent_party_columns_missing_witness :
  ∃ df,
    merge_two_tables (Some Scenario.turnout_header) Scenario.turnout_rows
                     (Some Scenario.party_header) Scenario.party_rows = Ok df ∧
    [Some "Unit2"; Some "002"; Some "50"; None; None] ∈ values df ∧
    ∀ row, row ∈ values df → Pandas.has_key 0 (Some "Unit2") row →
      ∀ p, p < 2 → row !! (3 + p) = Some None.
Proof.
  eexists. split; [reflexivity|].
  apply (merge_absent_party_columns_missing
           Scenario.turnout_header Scenario.party_header
           Scenario.turnout_rows Scenario.party_rows _ 0 0 (Some "Unit2")
           [Some "Unit2"; Some "002"; Some "50"]).
  - repeat constructor.
  - repeat constructor.
  - reflexivity.
  - reflexivity.
  - reflexivity.
  - apply list_elem_of_further, list_elem_of_here.
  - reflexivity.
  - reflexivity.
Defined.

(** C7, as stated, fails when a key is carried by two rows of the one table
    that has it: Unit2, in the first table only, appears twice in the merged
    output. *)
Lemma merge_key_of_two_rows_appears_twice :
  merge_two_tables (Some Scenario.turnout_header) Scenario.turnout_rows_twice
                   (Some Scenario.party_header) Scenario.party_rows
  = Ok (Frame ["Obec"; "Číslo obce"; "Voliči v seznamu"; "Party X"; "Party Y"]
          [ [Some "Unit1"; Some "001"; Some "100"; Some "30"; Some "0"];
            [Some "Unit2"; Some "002"; Some "50"; None; None];
            [Some "Unit2"; Some "003"; Some "70"; None; None];
            [Some "Unit3"; None; None; Some "7"; Some "12"] ]) ∧
  filter (Pandas.has_key 0 (Some "Unit2")) Scenario.party_rows = [] ∧
  ¬ ∀ df,
      merge_two_tables (Some Scenario.turnout_header) Scenario.turnout_rows_twice
                       (Some Scenario.party_header) Scenario.party_rows = Ok df →
      length (filter (Pandas.has_key 0 (Some "Unit2")) (values df)) = 1.
Proof.
  split; [reflexivity|]. split; [reflexivity|].
  intros H. specialize (H _ eq_refl). discriminate H.
Qed.

(** C7, amended: [merge_two_tables] performs a full outer join of the two
    tables on the "Obec" column: for tables whose rows fit their headers, a
    key carried by rows of only one table appears in the merged output once
    for each row that carries it there (so exactly once when one row does),
    with the fields coming from the other table missing; a row of the
    second table keeps its key in the "Obec" column. *)
Theorem merge_outer_join_unmatched
    (headers1 headers2 : list string) (rows1 rows2 : list (list cell))
    (df : DataFrame) (i j : nat) :
  Forall (fun row => length row = length headers1) rows1 →
  Forall (fun row => length row = length headers2) rows2 →
  merge_two_tables (Some headers1) rows1 (Some headers2) rows2 = Ok df →
  Pandas.index_of "Obec" (Pandas.renamed column_renames <$> headers1) = Some i →
  Pandas.index_of "Obec" headers2 = Some j →
  ∀ k,
    (filter (Pandas.has_key j k) rows2 = [] →
     filter (Pandas.has_key i k) (values df) =
       (fun l => l ++ replicate (length headers2 - 1) None)
         <$> filter (Pandas.has_key i k) rows1) ∧
    (filter (Pandas.has_key i k) rows1 = [] →
     filter (Pandas.has_key i k) (values df) =
       (fun r => <[i:=k]> (replicate (length headers1) None) ++ delete j r)
         <$> filter (Pandas.has_key j k) rows2).
Proof.
  intros Hfit1 Hfit2 Hmerge Hi Hj k.
  rewrite MergeFacts.merge_two_tables_fit in Hmerge by done.
  split; intros Habsent.
  - apply (MergeFacts.merge_outer_left_only _ _ _ _ _ _ k Hmerge Hi Hj Habsent).
  - pose proof (MergeFacts.merge_outer_right_only _ _ _ _ _ _ k Hmerge Hi Hj
                  Habsent) as Hrows.
    cbn in Hrows. by rewrite length_fmap in Hrows.
Qed.

(** Unit2 is in the first table only, Unit3 in the second only. *)
Lemma merge_outer_join_unmatched_witness :
  ∃ df,
    merge_two_tables (Some Scenario.turnout_header) Scenario.turnout_rows
                     (Some Scenario.party_header) Scenario.party_rows = Ok df ∧
    filter (Pandas.has_key 0 (Some "Unit2")) (values df)
      = [[Some "Unit2"; Some "002"; Some "50"; None; None]] ∧
    filter (Pandas.has_key 0 (Some "Unit3")) (values df)
      = [[Some "Unit3"; None; None; Some "7"; Some "12"]].
Proof.
  eexists. split; [reflexivity|].
  pose proof (merge_outer_join_unmatched
                Scenario.turnout_header Scenario.party_header
                Scenario.turnout_rows Scenario.party_rows _ 0 0
                ltac:(repeat constructor) ltac:(repeat constructor)
                eq_refl eq_refl eq_refl) as H.
  split.
  - exact (proj1 (H (Some "Unit2")) eq_refl).
  - exact (proj2 (H (Some "Unit3")) eq_refl).
Defined.

(** C8, as stated, fails for the second table: its label [Vydanéobálky] is
    one of the mapping and reaches the merged output as it is. *)
Lemma merge_second_table_not_renamed :
  dict_get "Vydanéobálky" column_renames = Some "Vydané obálky" ∧
  merge_two_tables (Some ["Obec"; "Platnéhlasy"]) []
                   (Some ["Obec"; "Vydanéobálky"]) []
  = Ok (Frame ["Obec"; "Platné hlasy"; "Vydanéobálky"] []) ∧
  ¬ ∀ df,
      merge_two_tables (Some ["Obec"; "Platnéhlasy"]) []
                       (Some ["Obec"; "Vydanéobálky"]) [] = Ok df →
      "Vydanéobálky" ∉ columns df.
Proof.
  split; [reflexivity|]. split; [reflexivity|].
  intros H. apply (H _ eq_refl).
  do 2 apply list_elem_of_further. apply list_elem_of_here.
Qed.

(** C8, amended: before the join, every occurrence of a label of the fixed
    mapping in the headers of the first table is rewritten to its canonical
    form, wherever it stands in that header; the labels of the second table
    are left as they are.  In the merged output a label the two tables then
    share, the key apart, carries the suffix [_x] or [_y]. *)
Theorem merge_renames_first_table
    (headers1 headers2 : list string) (rows1 rows2 : list (list cell))
    (df : DataFrame) (j : nat) :
  merge_two_tables (Some headers1) rows1 (Some headers2) rows2 = Ok df →
  Pandas.index_of "Obec" headers2 = Some j →
  let shared :=
    Pandas.overlap (Pandas.renamed column_renames <$> headers1)
                   (delete j headers2) "Obec" in
  (∀ p malformed canonical,
     headers1 !! p = Some malformed →
     (malformed, canonical) ∈ column_renames →
     columns df !! p = Some (Pandas.suffixed shared "_x" canonical)) ∧
  (∀ q label,
     delete j headers2 !! q = Some label →
     columns df !! (length headers1 + q)
       = Some (Pandas.suffixed shared "_y" label)).
Proof.
  intros Hmerge Hj shared.
  rewrite (MergeFacts.merge_two_tables_columns _ _ _ _ _ _ Hmerge Hj).
  fold shared. split.
  - intros p malformed canonical Hp Hin.
    apply lookup_app_l_Some. rewrite !list_lookup_fmap, Hp.
    assert (Pandas.renamed column_renames malformed = canonical) as <-; [|done].
    unfold column_renames in Hin.
    repeat (apply elem_of_cons in Hin as [[= -> ->]|Hin]; [reflexivity|]).
    by apply elem_of_nil in Hin.
  - intros q label Hq.
    rewrite lookup_app_r by (rewrite !length_fmap; lia).
    rewrite !length_fmap, Nat.add_comm, Nat.add_sub.
    by rewrite list_lookup_fmap, Hq.
Qed.

(** The third label of the first table is renamed, the labels of the
    second are kept. *)
Lemma merge_renames_first_table_witness :
  ∃ df,
    merge_two_tables (Some Scenario.turnout_header) Scenario.turnout_rows
                     (Some Scenario.party_header) Scenario.party_rows = Ok df ∧
    columns df !! 2 = Some "Voliči v seznamu" ∧
    columns df !! 4 = Some "Party Y".
Proof.
  eexists. split; [reflexivity|].
  pose proof (merge_renames_first_table
                Scenario.turnout_header Scenario.party_header
                Scenario.turnout_rows Scenario.party_rows _ 0
                eq_refl eq_refl) as [Hfirst Hsecond].
  split.
  - apply (Hfirst 2 "Voličiv seznamu" "Voliči v seznamu"); [reflexivity|].
    apply list_elem_of_here.
  - apply (Hsecond 1 "Party Y"). reflexivity.
Defined.

(** * Further properties *)

(** ** Assignments to a [dict] *)

Section AssignFacts.

Context {V : Type}.
Implicit Types (d : dict V) (k : string) (v : V).

Lemma elem_of_dict_set k v d kv :
  kv ∈ dict_set k v d → kv ∈ d ∨ (kv.2 = v ∧ String.eqb k kv.1 = true).
Proof.
  induction d as [|[k' v'] d IH]; cbn.
  - intros ->%list_elem_of_singleton. right. cbn. by rewrite String.eqb_refl.
  - destruct (String.eqb_spec k k') as [->|Hne].
    + intros [->|Hin]%elem_of_cons.
      * right. cbn. by rewrite String.eqb_refl.
      * left. by apply list_elem_of_further.
    + intros [->|Hin]%elem_of_cons; [left; apply list_elem_of_here|].
      destruct (IH Hin) as [?|?]; [left; by apply list_elem_of_further|by right].
Qed.

(** Whatever is in the dict after a row of assignments was in it before or
    is one of the assigned entries. *)
Lemma elem_of_assign_all d entries kv :
  kv ∈ assign_all d entries → kv ∈ d ∨ kv ∈ entries.
Proof.
  unfold assign_all. revert d.
  induction entries as [|[k v] entries IH]; intros d; cbn; [by left|].
  intros [Hin|Hin]%IH; [|right; by apply list_elem_of_further].
  apply elem_of_dict_set in Hin as [Hin|[Hv Hk]]; [by left|].
  right. destruct kv as [k0 v0]. cbn in *.
  apply String.eqb_eq in Hk. subst. apply list_elem_of_here.
Qed.

(** New keys, all different, are appended in order. *)
Lemma assign_all_fresh d entries :
  NoDup (dict_keys d ++ entries.*1) → assign_all d entries = d ++ entries.
Proof.
  unfold assign_all. revert d.
  induction entries as [|[k v] entries IH]; intros d Hnd; cbn.
  - by rewrite app_nil_r.
  - assert (dict_set k v d = d ++ [(k, v)]) as ->.
    { cbn in Hnd. apply NoDup_app in Hnd as (_ & Hdisj & _).
      assert (k ∉ dict_keys d) as Hk.
      { intros Hin. apply (Hdisj _ Hin), list_elem_of_here. }
      clear -Hk. unfold dict_keys in Hk.
      induction d as [|[k' v'] d IH]; cbn; [done|].
      destruct (String.eqb_spec k k') as [->|Hne].
      - exfalso. apply Hk, list_elem_of_here.
      - rewrite IH; [done|]. intros Hin. by apply Hk, list_elem_of_further. }
    rewrite IH.
    + by rewrite <- app_assoc.
    + unfold dict_keys in *. rewrite fmap_app. cbn.
      by rewrite <- app_assoc.
Qed.

End AssignFacts.

(** ** [init_district_data] *)

Section InitFacts.

Variable lower : string → string.
Variable strip : string → string.
Variable urljoin : string → option attr_val → res string.

#[local] Abbreviation of_row := (district_of_row lower strip urljoin).

(** The loop over rows is a row of assignments, or the first exception. *)
Lemma init_rows_eq rows districts :
  init_rows lower strip urljoin rows districts =
    match mapM of_row rows with
    | Ok entries => Ok (assign_all districts (omap id entries))
    | Raise e => Raise e
    end.
Proof.
  revert districts. induction rows as [|row rest IH]; intros districts; [done|].
  cbn. destruct (of_row row) as [e|]; cbn; [|done].
  destruct e as [[name district_url]|]; rewrite IH;
    by destruct (mapM of_row rest).
Qed.

Lemma init_rows_app rows1 rows2 districts :
  init_rows lower strip urljoin (rows1 ++ rows2) districts =
    init_rows lower strip urljoin rows1 districts
    ≫= init_rows lower strip urljoin rows2.
Proof.
  revert districts. induction rows1 as [|row rows1 IH]; intros districts; [done|].
  cbn. destruct (of_row row) as [e|]; cbn; [|done].
  by destruct e as [[name district_url]|].
Qed.

Lemma init_tables_flat tables districts :
  init_tables lower strip urljoin tables districts =
    init_rows lower strip urljoin (tables ≫= Soup.find_all "tr" []) districts.
Proof.
  revert districts. induction tables as [|table rest IH]; intros districts; [done|].
  cbn. rewrite init_rows_app.
  destruct (init_rows _ _ _ (Soup.find_all "tr" [] table) districts); cbn;
    [apply IH|done].
Qed.

Lemma init_district_data_eq soup :
  init_district_data lower strip urljoin soup =
    match mapM of_row (landing_rows soup) with
    | Ok entries => Ok (assign_all [] (omap id entries))
    | Raise e => Raise e
    end.
Proof.
  unfold init_district_data. by rewrite init_tables_flat, init_rows_eq.
Qed.

(** What a row has to look like to give an entry. *)
Lemma district_of_row_Some row key district_url :
  of_row row = Ok (Some (key, district_url)) →
  ∃ td link,
    Soup.find_all "td" [] row !! 1 = Some td ∧
    Soup.find_all "a" [] row !! 2 = Some link ∧
    strip (Soup.text td) ≠ EmptyString ∧
    key = lower (strip (Soup.text td)) ∧
    urljoin base_url (Soup.get link "href") = Ok district_url.
Proof.
  unfold district_of_row.
  destruct (Soup.find_all "a" [] row) as [|l0 [|l1 [|link links]]]; try done.
  destruct (Soup.find_all "td" [] row) as [|t0 [|td tds]]; try done.
  destruct (truthy (strip (Soup.text td))) eqn:Hname; cbn; [|done].
  destruct (truthy_attr (Soup.get link "href")); cbn; [|done].
  destruct (urljoin base_url (Soup.get link "href")) as [u|] eqn:Hu; cbn; [|done].
  intros [= <- <-]. exists td, link. repeat split; try done.
  intros Hempty. unfold truthy in Hname. by rewrite Hempty in Hname.
Qed.

End InitFacts.

Section MapMFacts.

Context {A B : Type} (f : A → res B).

Lemma mapM_res_elem l ys y :
  mapM f l = Ok ys → y ∈ ys → ∃ x, x ∈ l ∧ f x = Ok y.
Proof.
  revert ys. induction l as [|x l IH]; intros ys; cbn.
  - intros [= <-] Hy. by apply elem_of_nil in Hy.
  - destruct (f x) as [y0|] eqn:Hx; cbn; [|done].
    destruct (mapM f l) as [ys0|]; cbn; [|done].
    intros [= <-] [->|Hy]%elem_of_cons.
    + exists x. split; [apply list_elem_of_here|done].
    + destruct (IH _ eq_refl Hy) as (x' & Hin & Hx').
      exists x'. split; [by apply list_elem_of_further|done].
Qed.

Lemma mapM_res_Ok l :
  (∀ x, x ∈ l → ∃ y, f x = Ok y) → ∃ ys, mapM f l = Ok ys.
Proof.
  induction l as [|x l IH]; intros Hall; cbn; [by eexists|].
  destruct (Hall x) as [y ->]; [apply list_elem_of_here|]. cbn.
  destruct IH as [ys ->]; [|by eexists].
  intros x' Hx'. by apply Hall, list_elem_of_further.
Qed.


End MapMFacts.

(** X1: every entry of the district index comes from a row the loops
    visit: its key is the lower-cased, stripped text of the row's second
    cell, which is not empty, and its value is the third link's target
    joined to the base url. *)
Theorem init_district_data_entries_from_rows
    (lower strip : string → string)
    (urljoin : string → option attr_val → res string)
    (soup : node) (districts : dict string) (key district_url : string) :
  init_district_data lower strip urljoin soup = Ok districts →
  (key, district_url) ∈ districts →
  ∃ row td link,
    row ∈ landing_rows soup ∧
    Soup.find_all "td" [] row !! 1 = Some td ∧
    Soup.find_all "a" [] row !! 2 = Some link ∧
    strip (Soup.text td) ≠ EmptyString ∧
    key = lower (strip (Soup.text td)) ∧
    urljoin base_url (Soup.get link "href") = Ok district_url.
Proof.
  rewrite init_district_data_eq.
  destruct (mapM _ (landing_rows soup)) as [entries|] eqn:Hrows; [|done].
  intros [= <-] [Hin|Hin]%elem_of_assign_all; [by apply elem_of_nil in Hin|].
  apply list_elem_of_omap in Hin as (e & He & Hid).
  cbn in Hid. subst e.
  destruct (mapM_res_elem _ _ _ _ Hrows He) as (row & Hrow & Hentry).
  destruct (district_of_row_Some _ _ _ _ _ _ Hentry)
    as (td & link & Htd & Hlink & Hname & Hkey & Hurl).
  by exists row, td, link.
Qed.

(** On [Cases.landing] the entry of Praha comes from a row with that
    name. *)
Lemma init_district_data_entries_from_rows_witness :
  ∃ row td link,
    row ∈ landing_rows Cases.landing ∧
    Soup.find_all "td" [] row !! 1 = Some td ∧
    Soup.find_all "a" [] row !! 2 = Some link ∧
    Ascii7.strip (Soup.text td) ≠ EmptyString ∧
    "praha" = Ascii7.lower (Ascii7.strip (Soup.text td)) ∧
    Cases.urljoin base_url (Soup.get link "href") = Ok Cases.praha_url.
Proof.
  apply (init_district_data_entries_from_rows Ascii7.lower Ascii7.strip
           Cases.urljoin Cases.landing
           [ ("praha", Cases.praha_url);
             ("benešov", "https://www.volby.cz/pls/ps2017nss/ps32?xnumnuts=2101") ]).
  - vm_compute. reflexivity.
  - apply list_elem_of_here.
Defined.

(** X2: when the url function accepts the link of every row, the index is
    returned and holds exactly one entry for each key, with the target of
    the last row of that key: districts whose names differ only in what
    [lower] and [strip] remove share one entry. *)
Theorem init_district_data_last_wins
    (lower strip : string → string)
    (urljoin : string → option attr_val → res string)
    (soup : node) (entries : list (option (string * string))) :
  mapM (district_of_row lower strip urljoin) (landing_rows soup) = Ok entries →
  ∃ districts,
    init_district_data lower strip urljoin soup = Ok districts ∧
    NoDup (dict_keys districts) ∧
    ∀ before key district_url after,
      omap id entries = before ++ (key, district_url) :: after →
      key ∉ after.*1 →
      filter (fun kv => kv.1 = key) districts = [(key, district_url)].
Proof.
  intros Hrows. rewrite init_district_data_eq, Hrows.
  eexists. split; [done|].
  assert (NoDup (dict_keys (assign_all (V:=string) [] (omap id entries))))
    as Hnd by apply assign_all_NoDup, NoDup_nil_2.
  split; [done|].
  intros before key district_url after Heq Hlast.
  rewrite Heq in Hnd |- *.
  apply dict_entries_of_key; [done|]. by apply assign_all_last.
Qed.

(** On [Cases.landing] the two rows of Benešov leave the second target. *)
Lemma init_district_data_last_wins_witness :
  ∃ districts,
    init_district_data Ascii7.lower Ascii7.strip Cases.urljoin Cases.landing
      = Ok districts ∧
    filter (fun kv => kv.1 = "benešov") districts
      = [("benešov", "https://www.volby.cz/pls/ps2017nss/ps32?xnumnuts=2101")].
Proof.
  destruct (init_district_data_last_wins Ascii7.lower Ascii7.strip
              Cases.urljoin Cases.landing
              [ None;
                Some ("praha", Cases.praha_url);
                Some ("benešov",
                      "https://www.volby.cz/pls/ps2017nss/ps32?xnumnuts=0000");
                Some ("benešov",
                      "https://www.volby.cz/pls/ps2017nss/ps32?xnumnuts=2101");
                None ])
    as (districts & Hreturns & _ & Hlast).
  - vm_compute. reflexivity.
  - exists districts. split; [exact Hreturns|].
    apply (Hlast
             [ ("praha", Cases.praha_url);
               ("benešov",
                "https://www.volby.cz/pls/ps2017nss/ps32?xnumnuts=0000") ]
             "benešov" _ []).
    + reflexivity.
    + apply not_elem_of_nil.
Defined.

(** X3: a page on which every row has fewer than three links or fewer than
    two cells gives the empty index, whatever else it holds. *)
Theorem init_district_data_no_district_rows
    (lower strip : string → string)
    (urljoin : string → option attr_val → res string) (soup : node) :
  (∀ row, row ∈ landing_rows soup →
     length (Soup.find_all "a" [] row) < 3 ∨
     length (Soup.find_all "td" [] row) < 2) →
  init_district_data lower strip urljoin soup = Ok [].
Proof.
  intros Hrows. rewrite init_district_data_eq.
  assert (∀ row, row ∈ landing_rows soup →
            district_of_row lower strip urljoin row = Ok None) as Hnone.
  { intros row Hrow. unfold district_of_row.
    destruct (Hrows row Hrow) as [Hlinks|Htds].
    - destruct (Soup.find_all "a" [] row) as [|? [|? [|? ?]]]; cbn in *;
        try done; lia.
    - destruct (Soup.find_all "a" [] row) as [|? [|? [|? ?]]]; try done.
      destruct (Soup.find_all "td" [] row) as [|? [|? ?]]; cbn in *;
        try done; lia. }
  clear Hrows. induction (landing_rows soup) as [|row rows IH]; [done|].
  cbn. rewrite Hnone by apply list_elem_of_here. cbn.
  destruct (mapM _ rows) as [entries|] eqn:Hm; cbn.
  - cbn in IH. apply IH. intros r Hr. by apply Hnone, list_elem_of_further.
  - exfalso. specialize (IH ltac:(intros r Hr; by apply Hnone, list_elem_of_further)).
    done.
Qed.

(** A municipality page has no row of three links. *)
Lemma init_district_data_no_district_rows_witness :
  init_district_data Ascii7.lower Ascii7.strip Cases.urljoin
    Scenario.party_page = Ok [].
Proof.
  apply (init_district_data_no_district_rows Ascii7.lower Ascii7.strip
           Cases.urljoin Scenario.party_page).
  intros row Hrow. left. vm_compute in Hrow.
  repeat (apply elem_of_cons in Hrow as [->|Hrow]; [vm_compute; lia|]).
  by apply elem_of_nil in Hrow.
Defined.

(** ** [extract_district_units], further *)


Section ExtractMore.

Variable strip : string → string.
Variable urljoin : string → option attr_val → res string.
Variable xobec_of : string → res (option string).

#[local] Abbreviation unit_of := (district_unit_of_row strip urljoin xobec_of).

Lemma extract_rows_eq base rows district_units :
  extract_rows strip urljoin xobec_of base rows district_units =
    match mapM (unit_of base) rows with
    | Ok entries => Ok (assign_all district_units (omap id entries))
    | Raise e => Raise e
    end.
Proof.
  revert district_units.
  induction rows as [|row rest IH]; intros district_units; [done|].
  cbn. destruct (unit_of base row) as [e|]; cbn; [|done].
  destruct e as [[name data]|]; rewrite IH;
    by destruct (mapM (unit_of base) rest).
Qed.

Lemma district_unit_of_row_Some base row name data :
  unit_of base row = Ok (Some (name, data)) →
  ∃ td a_tag,
    Soup.find "td" [("class", "overflow_name")] row = Some td ∧
    Soup.find "a" [] row = Some a_tag ∧
    name = strip (Soup.text td) ∧
    urljoin base (Soup.get a_tag "href") = Ok (url data) ∧
    xobec_of (url data) = Ok (cislo_obce data).
Proof.
  unfold district_unit_of_row.
  destruct (Soup.find "td" _ row) as [td|]; [|done].
  destruct (Soup.find "a" [] row) as [a_tag|]; [|done].
  destruct (urljoin base (Soup.get a_tag "href")) as [full_url|] eqn:Hu;
    cbn; [|done].
  destruct (xobec_of full_url) as [number|] eqn:Hx; cbn; [|done].
  intros [= <- <-]. by exists td, a_tag.
Qed.

End ExtractMore.


(** X5: every entry the function returns comes from a row of the page: the
    name is the stripped text of the row's first cell of class
    [overflow_name], the url is the row's first link joined to the base, and
    the code is what the query of that very url gives. *)
Theorem extract_district_units_entries_from_rows
    (strip : string → string)
    (urljoin : string → option attr_val → res string)
    (xobec_of : string → res (option string))
    (soup : node) (base : string)
    (district_units : dict unit_data) (name : string) (data : unit_data) :
  extract_district_units strip urljoin xobec_of soup base = Ok district_units →
  (name, data) ∈ district_units →
  ∃ row td a_tag,
    row ∈ Soup.find_all "tr" [] soup ∧
    Soup.find "td" [("class", "overflow_name")] row = Some td ∧
    Soup.find "a" [] row = Some a_tag ∧
    name = strip (Soup.text td) ∧
    urljoin base (Soup.get a_tag "href") = Ok (url data) ∧
    xobec_of (url data) = Ok (cislo_obce data).
Proof.
  unfold extract_district_units. rewrite extract_rows_eq.
  destruct (mapM _ (Soup.find_all "tr" [] soup)) as [entries|] eqn:Hrows; [|done].
  intros [= <-] [Hin|Hin]%elem_of_assign_all; [by apply elem_of_nil in Hin|].
  apply list_elem_of_omap in Hin as (e & He & Hid). cbn in Hid. subst e.
  destruct (mapM_res_elem _ _ _ _ Hrows He) as (row & Hrow & Hentry).
  destruct (district_unit_of_row_Some _ _ _ _ _ _ _ Hentry)
    as (td & a_tag & ? & ? & ? & ? & ?).
  by exists row, td, a_tag.
Qed.

(** The entry of Beta on [Scenario.district_page]. *)
Lemma extract_district_units_entries_from_rows_witness :
  ∃ row td a_tag,
    row ∈ Soup.find_all "tr" [] Scenario.district_page ∧
    Soup.find "td" [("class", "overflow_name")] row = Some td ∧
    Soup.find "a" [] row = Some a_tag ∧
    "Beta" = Ascii7.strip (Soup.text td) ∧
    Cases.urljoin Cases.praha_url (Soup.get a_tag "href")
      = Ok "https://www.volby.cz/pls/ps2017nss/ps311?xobec=2" ∧
    Scenario.xobec_of "https://www.volby.cz/pls/ps2017nss/ps311?xobec=2"
      = Ok (Some "2").
Proof.
  apply (extract_district_units_entries_from_rows Ascii7.strip Cases.urljoin
           Scenario.xobec_of Scenario.district_page Cases.praha_url
           [ ("Alfa", UnitData "https://www.volby.cz/pls/ps2017nss/ps311?xobec=3"
                        (Some "3"));
             ("Beta", UnitData "https://www.volby.cz/pls/ps2017nss/ps311?xobec=2"
                        (Some "2")) ]
           "Beta"
           (UnitData "https://www.volby.cz/pls/ps2017nss/ps311?xobec=2"
              (Some "2"))).
  - vm_compute. reflexivity.
  - apply list_elem_of_further, list_elem_of_here.
Defined.

(** ** [get_district_turnout_summary], further *)

(** X6: the collector returns no header exactly when it returns no row,
    which is when no unit's page was fetched with a table in it. *)
Theorem turnout_no_header_iff_no_rows
    (strip : string → string) (get_page_content : string → option node)
    (units : dict unit_data) :
  let result := get_district_turnout_summary strip get_page_content units in
  (result.1 = None ↔ result.2 = []) ∧
  (result.2 = [] ↔
   ∀ u, u ∈ units → turnout_table get_page_content u.2 = None).
Proof.
  cbn zeta. rewrite get_district_turnout_summary_spec. cbn [fst snd].
  pose proof (turnout_rows_count strip get_page_content units) as Hcount.
  split.
  - destruct (turnout_tables get_page_content units) as [|t ts] eqn:Ht;
      destruct (omap _ units) as [|r rs] eqn:Hr; cbn in *; done.
  - split.
    + intros Hnil u Hu.
      destruct (turnout_table get_page_content u.2) as [t|] eqn:Ht; [|done].
      assert (Some u.1 :: cislo_obce u.2
              :: (Some <$> turnout_data_row strip t) ∈ ([] : list (list cell)))
        as Hin; [|by apply elem_of_nil in Hin].
      rewrite <- Hnil. apply list_elem_of_omap. exists u. split; [done|].
      unfold turnout_row. by rewrite Ht.
    + intros Hnone.
      destruct (omap _ units) as [|r rs] eqn:Hr; [done|].
      assert (r ∈ omap (turnout_row strip get_page_content) units) as Hin
        by (rewrite Hr; apply list_elem_of_here).
      apply list_elem_of_omap in Hin as (u & Hu & Hrow).
      unfold turnout_row in Hrow. by rewrite (Hnone u Hu) in Hrow.
Qed.

(** X7: the rows follow the units: in the order of the input, one row for
    each unit whose page has a table, beginning with the unit's name and
    then its code. *)
Theorem turnout_rows_follow_units
    (strip : string → string) (get_page_content : string → option node)
    (units : dict unit_data) :
  take 2 <$> (get_district_turnout_summary strip get_page_content units).2 =
    (fun u => [Some u.1; cislo_obce u.2])
      <$> filter (fun u => is_Some (turnout_table get_page_content u.2)) units.
Proof.
  rewrite get_district_turnout_summary_spec. cbn [snd].
  induction units as [|u rest IH]; [done|].
  destruct (turnout_table get_page_content u.2) as [t|] eqn:Ht.
  - assert (turnout_row strip get_page_content u =
              Some (Some u.1 :: cislo_obce u.2
                    :: (Some <$> turnout_data_row strip t))) as Hrow
      by (unfold turnout_row; by rewrite Ht).
    rewrite filter_cons_True by (rewrite Ht; by eexists).
    cbn [omap list_omap]. rewrite Hrow, !fmap_cons. f_equal. apply IH.
  - assert (turnout_row strip get_page_content u = None) as Hrow
      by (unfold turnout_row; by rewrite Ht).
    rewrite filter_cons_False by (rewrite Ht; by intros [? ?]).
    cbn [omap list_omap]. rewrite Hrow. apply IH.
Qed.

(** X8: the slice [[3:]] never fails: a page whose table has at most three
    numeric cells gives a row of just the name and the code, and any table
    gives as many value fields as it has numeric cells beyond the third. *)
Theorem turnout_row_of_few_cells
    (strip : string → string) (get_page_content : string → option node)
    (units : dict unit_data) (u : string * unit_data) (table : node) :
  u ∈ units →
  turnout_table get_page_content u.2 = Some table →
  ∃ fields,
    Some u.1 :: cislo_obce u.2 :: fields
      ∈ (get_district_turnout_summary strip get_page_content units).2 ∧
    length fields = (table_shape table).2 - 3 ∧
    ((table_shape table).2 ≤ 3 → fields = []).
Proof.
  intros Hu Ht. rewrite get_district_turnout_summary_spec. cbn [snd].
  exists (Some <$> turnout_data_row strip table).
  assert (length (Some <$> turnout_data_row strip table)
          = (table_shape table).2 - 3) as Hlen.
  { unfold turnout_data_row. cbn. by rewrite !length_fmap, length_drop. }
  split; [|split; [done|]].
  - apply list_elem_of_omap. exists u. split; [done|].
    unfold turnout_row. by rewrite Ht.
  - intros Hfew. apply nil_length_inv. lia.
Qed.

(** The bare table of [Scenario] has no numeric cell. *)
Lemma turnout_row_of_few_cells_witness :
  ∃ fields,
    Some "Alfa" :: Some "500011" :: fields
      ∈ (get_district_turnout_summary Ascii7.strip
           (Scenario.serve (Scenario.document [Scenario.bare_table]))
           [Scenario.alfa]).2 ∧
    length fields = 0 ∧
    (0 ≤ 3 → fields = []).
Proof.
  apply (turnout_row_of_few_cells Ascii7.strip
           (Scenario.serve (Scenario.document [Scenario.bare_table]))
           [Scenario.alfa] Scenario.alfa Scenario.bare_table).
  - apply list_elem_of_here.
  - reflexivity.
Defined.

(** ** [get_district_party_results], further *)

Section PartyMore.

Variable strip : string → string.
Variable int : string → option Z.
Variable get_page_content : string → option node.

#[local] Abbreviation fields' := (row_fields strip).
#[local] Abbreviation numbers' l := (list_to_set (C := gset string) l.*1.*1).
#[local] Abbreviation put :=
  (fun (results : gmap string string) (r : string * string * string) =>
     <[r.1.2 := r.2]> results).

Lemma numbered_app_eq v1 v2 :
  numbered int (v1 ++ v2) =
    match numbered int v1, numbered int v2 with
    | Some a, Some b => Some (a ++ b)
    | _, _ => None
    end.
Proof.
  unfold numbered. induction v1 as [|[number name] v1 IH]; cbn.
  - by destruct (mapM _ v2).
  - destruct (int number) as [n|]; cbn; [|done]. rewrite IH.
    destruct (mapM _ v1); cbn; [|done]. by destruct (mapM _ v2).
Qed.

Lemma numbered_None vocabulary :
  numbered int vocabulary = None ↔
  ∃ number name, (number, name) ∈ vocabulary ∧ int number = None.
Proof.
  unfold numbered. induction vocabulary as [|[number name] v IH]; cbn.
  - split; [done|]. intros (? & ? & Hin & _). by apply elem_of_nil in Hin.
  - destruct (int number) as [n|] eqn:Hn; cbn.
    + destruct (mapM _ v) as [vs|]; cbn.
      * split; [done|]. intros (number' & name' & Hin & Hnone).
        apply elem_of_cons in Hin as [[= -> ->]|Hin]; [congruence|].
        assert (Some vs = None) as Hv by (apply IH; eauto). done.
      * split; [|done]. intros _.
        destruct (proj1 IH eq_refl) as (number' & name' & Hin & Hnone).
        exists number', name'. split; [by apply list_elem_of_further|done].
    + split; [|done]. intros _. exists number, name.
      split; [apply list_elem_of_here|done].
Qed.

(** The rows of a table, in full: [results] takes every name and votes,
    the vocabulary the numbers not seen before; the first such number that
    [int] rejects ends the loop. *)
Lemma party_rows_full rows results plist seen :
  party_rows strip int rows (results, plist, seen) =
    match numbered int (first_seen seen (omap fields' rows)) with
    | Some vocab =>
        Ok (foldl put results (omap fields' rows), plist ++ vocab,
            seen ∪ numbers' (omap fields' rows))
    | None => Raise ValueError
    end.
Proof.
  revert results plist seen.
  induction rows as [|row rest IH]; intros results plist seen.
  - cbn. rewrite app_nil_r. do 2 f_equal. set_solver.
  - cbn [party_rows omap list_omap]. unfold party_row.
    destruct (fields' row) as [[[number name] votes]|]; cbn [first_seen foldl].
    + case_bool_decide as Hin; cbn.
      * rewrite IH. destruct (numbered int _); [|done].
        do 2 f_equal. set_solver.
      * unfold numbered. cbn. fold (numbered int).
        destruct (int number) as [n|]; cbn; [|done].
        rewrite IH. unfold numbered.
        destruct (mapM _ _) as [vs|]; cbn; [|done].
        rewrite <- app_assoc. cbn. do 2 f_equal. set_solver.
    + cbn. apply IH.
Qed.

Lemma unit_results_cons u rest :
  unit_results strip get_page_content (u :: rest) =
    if processed get_page_content u
    then (u.1, results_of (page_rows strip get_page_content u.2))
         :: unit_results strip get_page_content rest
    else unit_results strip get_page_content rest.
Proof.
  unfold unit_results. cbn. by destruct (processed get_page_content u).
Qed.

(** The loop over the units, in full. *)
Lemma party_loop_full units st :
  party_loop strip int get_page_content units st =
    match numbered int (first_seen (seen_parties st)
                          (encountered strip get_page_content units)) with
    | Some vocab =>
        Ok (PartyState (party_list st ++ vocab)
              (seen_parties st
               ∪ numbers' (encountered strip get_page_content units))
              (assign_all (district_units_data st)
                 (unit_results strip get_page_content units)))
    | None => Raise ValueError
    end.
Proof.
  revert st. induction units as [|[district_unit data] rest IH]; intros st.
  - cbn. destruct st as [pl seen dud]. cbn. rewrite app_nil_r.
    f_equal. f_equal. set_solver.
  - unfold encountered. cbn [mbind list_bind snd].
    fold (encountered strip get_page_content rest).
    rewrite unit_results_cons. unfold processed, page_rows. cbn [snd fst].
    cbn [party_loop].
    destruct (get_page_content (url data)) as [soup|]; [|by rewrite IH].
    destruct (drop 1 (Soup.find_all "table" [] soup)) as [|table tables] eqn:Ht;
      [by rewrite IH|].
    rewrite party_tables_flat, party_rows_full.
    rewrite (first_seen_app strip int get_page_content), numbered_app_eq.
    destruct (numbered int (first_seen (seen_parties st) _)) as [va|]; [|done].
    cbn. rewrite IH. cbn.
    destruct (numbered int _) as [vb|]; [|done].
    rewrite <- app_assoc. f_equal. f_equal. rewrite !fmap_app. set_solver.
Qed.

Lemma get_district_party_results_eq units :
  get_district_party_results strip int get_page_content units =
    match numbered int
            (first_seen ∅ (encountered strip get_page_content units)) with
    | Some vocab =>
        Ok ("Obec" :: party_names_ordered vocab,
            party_table_row (party_names_ordered vocab)
              <$> assign_all [] (unit_results strip get_page_content units))
    | None => Raise ValueError
    end.
Proof.
  unfold get_district_party_results. rewrite party_loop_full. cbn.
  by destruct (numbered int _).
Qed.

(** What [results] holds for a name. *)
Lemma foldl_put_untouched rows results name :
  name ∉ rows.*1.*2 → foldl put results rows !! name = results !! name.
Proof.
  revert results. induction rows as [|[[n0 name0] v0] rows IH]; intros results;
    cbn; [done|].
  intros Hnin. rewrite IH.
  - apply lookup_insert_ne. intros ->. apply Hnin, list_elem_of_here.
  - intros Hin. by apply Hnin, list_elem_of_further.
Qed.

Lemma results_of_last before number name votes after :
  name ∉ after.*1.*2 →
  results_of (before ++ (number, name, votes) :: after) !! name = Some votes.
Proof.
  intros Hnin. unfold results_of. rewrite foldl_app. cbn.
  rewrite foldl_put_untouched by done. apply lookup_insert_eq.
Qed.

Lemma results_of_absent rows name :
  name ∉ rows.*1.*2 → results_of rows !! name = None.
Proof.
  intros Hnin. unfold results_of. by rewrite foldl_put_untouched.
Qed.

End PartyMore.

Lemma NoDup_filter_keys {V : Type} (f : string * V → bool) (l : dict V) :
  NoDup l.*1 → NoDup (List.filter f l).*1.
Proof.
  induction l as [|kv l IH]; cbn; [done|].
  intros [Hnin Hnd]%NoDup_cons. destruct (f kv); cbn; [|by apply IH].
  apply NoDup_cons. split; [|by apply IH].
  intros (kv' & Hk & Hin)%list_elem_of_fmap. apply Hnin.
  apply list_elem_of_fmap. exists kv'. split; [done|].
  apply list_elem_of_In, filter_In in Hin as [Hin _].
  by apply list_elem_of_In.
Qed.

Section PartyTable.

Variable strip : string → string.
Variable int : string → option Z.
Variable get_page_content : string → option node.

(** With unit names all different, as the keys of a dict are, the rows are
    those of the processed units, one each and in order. *)
Lemma party_rows_of_units units header rows :
  NoDup units.*1 →
  get_district_party_results strip int get_page_content units
    = Ok (header, rows) →
  ∃ names,
    header = "Obec" :: names ∧
    rows = party_table_row names <$> unit_results strip get_page_content units.
Proof.
  intros Hnd. rewrite get_district_party_results_eq.
  destruct (numbered int _) as [vocab|]; [|done].
  intros [= <- <-]. eexists. split; [done|].
  rewrite assign_all_fresh; [done|]. cbn. unfold unit_results.
  rewrite <- list_fmap_compose.
  by apply (NoDup_filter_keys (processed get_page_content)).
Qed.

End PartyTable.

(** X9: the table the party collector returns is rectangular and has no
    missing field: every row has as many fields as the header has labels,
    each of them a [str]. *)
Theorem party_table_rectangular
    (strip : string → string) (int : string → option Z)
    (get_page_content : string → option node)
    (units : dict unit_data) (header : list string) (rows : list (list cell)) :
  get_district_party_results strip int get_page_content units
    = Ok (header, rows) →
  Forall (fun row => length row = length header ∧ Forall is_Some row) rows.
Proof.
  rewrite get_district_party_results_eq.
  destruct (numbered int _) as [vocab|]; [|done].
  intros [= <- <-]. apply Forall_fmap, Forall_forall. intros entry _.
  unfold party_table_row. cbn. rewrite length_map. split; [done|].
  constructor; [by eexists|]. apply Forall_forall.
  intros c (name & <- & _)%list_elem_of_In%in_map_iff. by eexists.
Qed.

(** Two units served [Scenario.party_page]. *)
Lemma party_table_rectangular_witness :
  Forall (fun row => length row = 3 ∧ Forall is_Some row)
    [ [Some "Alfa"; Some "20"; Some "10"]; [Some "Beta"; Some "20"; Some "10"] ].
Proof.
  apply (party_table_rectangular Ascii7.strip Ascii7.int
           (Scenario.serve Scenario.party_page)
           [Scenario.alfa; ("Beta", UnitData "u/beta" None)]
           ["Obec"; "Party A"; "Party B"]).
  reflexivity.
Defined.

(** X10: the party collector raises nothing but [ValueError], and raises
    it exactly when [int] rejects the number of a row that is the first of
    the run with that number text. *)
Theorem party_results_value_error_iff
    (strip : string → string) (int : string → option Z)
    (get_page_content : string → option node) (units : dict unit_data) :
  (∀ e, get_district_party_results strip int get_page_content units = Raise e →
        e = ValueError) ∧
  (get_district_party_results strip int get_page_content units
     = Raise ValueError ↔
   ∃ number name,
     (number, name)
       ∈ first_seen ∅ (encountered strip get_page_content units) ∧
     int number = None).
Proof.
  rewrite get_district_party_results_eq, <- numbered_None.
  destruct (numbered int _) as [vocab|]; split; try done.
  intros e [= <-]. done.
Qed.

(** X11: with unit names all different, the rows of the party table are
    those of the units whose page was fetched and has a second table, in the
    order of the input, each beginning with the unit's name; the other units
    have no row. *)
Theorem party_rows_follow_units
    (strip : string → string) (int : string → option Z)
    (get_page_content : string → option node)
    (units : dict unit_data) (header : list string) (rows : list (list cell)) :
  NoDup units.*1 →
  get_district_party_results strip int get_page_content units
    = Ok (header, rows) →
  head <$> rows =
    (fun u => Some (Some u.1)) <$> List.filter (processed get_page_content) units.
Proof.
  intros Hnd Hresult.
  destruct (party_rows_of_units _ _ _ _ _ _ Hnd Hresult) as (names & _ & ->).
  unfold unit_results. by rewrite <- !list_fmap_compose.
Qed.

(** Of [Cases.three_units], Alfa and Beta have a row. *)
Lemma party_rows_follow_units_witness :
  head <$> [ [Some "Alfa"; Some "20"; Some "10"];
             [Some "Beta"; Some "8"; Some "0"] ]
  = (fun u : string * unit_data => Some (Some u.1))
      <$> List.filter (processed Cases.unit_pages) Cases.three_units.
Proof.
  apply (party_rows_follow_units Ascii7.strip Ascii7.int Cases.unit_pages
           Cases.three_units ["Obec"; "Party A"; "Party B"]).
  - repeat constructor; set_solver.
  - reflexivity.
Defined.

(** X12: with unit names all different, the row of a processed unit holds
    under each party name of the header the votes of the last row of the
    unit's page with that name, and ["0"] when the page has no row with
    it. *)
Theorem party_cell_last_votes
    (strip : string → string) (int : string → option Z)
    (get_page_content : string → option node)
    (units : dict unit_data) (header : list string) (rows : list (list cell))
    (u : string * unit_data) (p : nat) (name : string) :
  NoDup units.*1 →
  get_district_party_results strip int get_page_content units
    = Ok (header, rows) →
  u ∈ units → processed get_page_content u = true →
  header !! S p = Some name →
  ∃ row,
    row ∈ rows ∧ row !! 0 = Some (Some u.1) ∧
    (∀ before number votes after,
       page_rows strip get_page_content u.2
         = before ++ (number, name, votes) :: after →
       name ∉ after.*1.*2 →
       row !! S p = Some (Some votes)) ∧
    (name ∉ (page_rows strip get_page_content u.2).*1.*2 →
     row !! S p = Some (Some "0")).
Proof.
  intros Hnd Hresult Hu Hprocessed Hname.
  destruct (party_rows_of_units _ _ _ _ _ _ Hnd Hresult) as (names & -> & ->).
  change (names !! p = Some name) in Hname.
  exists (party_table_row names
            (u.1, results_of (page_rows strip get_page_content u.2))).
  assert (∀ votes,
            default "0" (results_of (page_rows strip get_page_content u.2)
                         !! name) = votes →
            party_table_row names
              (u.1, results_of (page_rows strip get_page_content u.2)) !! S p
            = Some (Some votes)) as Hcell.
  { intros votes <-. unfold party_table_row. cbn.
    pose proof (list_lookup_fmap
                  (fun name0 =>
                     Some (default "0"
                             (results_of (page_rows strip get_page_content u.2)
                              !! name0)))
                  names p) as Hlookup.
    rewrite Hname in Hlookup. exact Hlookup. }
  split; [|split; [done|split]].
  - apply list_elem_of_fmap. eexists. split; [done|].
    unfold unit_results. apply list_elem_of_fmap. exists u. split; [done|].
    apply list_elem_of_In, filter_In. split; [by apply list_elem_of_In|done].
  - intros before number votes after Hrows Hlast. apply Hcell.
    by rewrite Hrows, results_of_last.
  - intros Habsent. apply Hcell. by rewrite results_of_absent.
Qed.

(** Beta's page lists Party A twice and Party B not at all. *)
Lemma party_cell_last_votes_witness :
  ∃ row,
    row ∈ [ [Some "Alfa"; Some "20"; Some "10"];
            [Some "Beta"; Some "8"; Some "0"] ] ∧
    row !! 0 = Some (Some "Beta") ∧
    row !! 2 = Some (Some "0").
Proof.
  destruct (party_cell_last_votes Ascii7.strip Ascii7.int Cases.unit_pages
              Cases.three_units ["Obec"; "Party A"; "Party B"]
              [ [Some "Alfa"; Some "20"; Some "10"];
                [Some "Beta"; Some "8"; Some "0"] ]
              ("Beta", UnitData "u/beta" (Some "2")) 1 "Party B")
    as (row & Hrow & Hname & _ & Hzero).
  - repeat constructor; set_solver.
  - reflexivity.
  - apply list_elem_of_further, list_elem_of_here.
  - reflexivity.
  - reflexivity.
  - exists row. split; [done|]. split; [done|]. apply Hzero.
    vm_compute. set_solver.
Defined.

(** ** [merge_two_tables], further *)

Module MergeMore.
Import Pandas PandasFacts MergeFacts.

(** The rows of the join under a key are the group of that key. *)
Lemma merge_outer_rows_of_key left right key df i j k :
  merge_outer left right key = Ok df →
  index_of key (columns left) = Some i →
  index_of key (columns right) = Some j →
  filter (has_key i k) (values df) =
    joined i j (length (columns left)) (length (columns right))
           (values left) (values right) k.
Proof.
  intros Hmerge Hi Hj.
  destruct (merge_outer_inv _ _ _ _ _ _ Hmerge Hi Hj) as [_ ->].
  assert (i < length (columns left)) as Hlt
    by (eapply lookup_lt_Some, index_of_lookup, Hi).
  rewrite filter_groups;
    [|apply NoDup_sorted_keys|intros k' row; by apply joined_has_key].
  case_bool_decide as Hin; [done|].
  unfold joined.
  assert (filter (has_key i k) (values left) = []) as ->.
  { apply filter_none, Forall_forall. intros l Hl Hk. apply Hin.
    rewrite elem_of_sorted_keys, elem_of_app. left.
    unfold key_column. apply list_elem_of_fmap. exists l. split; [|done].
    unfold has_key in Hk. by rewrite Hk. }
  assert (filter (has_key j k) (values right) = []) as ->; [|done].
  apply filter_none, Forall_forall. intros r Hr Hk. apply Hin.
  rewrite elem_of_sorted_keys, elem_of_app. right.
  unfold key_column. apply list_elem_of_fmap. exists r. split; [|done].
  unfold has_key in Hk. by rewrite Hk.
Qed.

Lemma joined_length i j w1 w2 L R k row :
  i < w1 → j < w2 →
  Forall (fun l => length l = w1) L →
  Forall (fun r => length r = w2) R →
  row ∈ joined i j w1 w2 L R k →
  length row = w1 + (w2 - 1).
Proof.
  intros Hi Hj HL HR. rewrite Forall_forall in HL. rewrite Forall_forall in HR.
  assert (∀ r, r ∈ filter (has_key j k) R → length (delete j r) = w2 - 1) as Hr.
  { intros r [_ Hin]%list_elem_of_filter.
    rewrite length_delete; [by rewrite (HR _ Hin)|].
    apply lookup_lt_is_Some. by rewrite (HR _ Hin). }
  assert (∀ l, l ∈ filter (has_key i k) L → length l = w1) as Hl.
  { intros l [_ Hin]%list_elem_of_filter. by apply HL. }
  unfold joined.
  destruct (filter (has_key i k) L) as [|l0 Lk] eqn:HLk.
  - intros (r & -> & Hin)%list_elem_of_fmap.
    by rewrite length_app, length_insert, length_replicate, Hr.
  - destruct (filter (has_key j k) R) as [|r0 Rk] eqn:HRk.
    + intros (l & -> & Hin)%list_elem_of_fmap.
      by rewrite length_app, length_replicate, Hl.
    + intros (l & (r & -> & Hin)%list_elem_of_fmap & Hlin)%list_elem_of_bind.
      by rewrite length_app, Hl, Hr.
Qed.

(** The renaming neither makes nor unmakes a join key. *)
Lemma renamed_key c :
  renamed column_renames c = "Obec" ↔ c = "Obec".
Proof.
  unfold renamed, column_renames. cbn.
  repeat match goal with
         | |- context [String.eqb c ?s] =>
             destruct (String.eqb_spec c s) as [->|?];
             [cbn; split; intros H; discriminate H|]
         end.
  done.
Qed.

Lemma index_of_renamed headers :
  index_of "Obec" (renamed column_renames <$> headers) = index_of "Obec" headers.
Proof.
  induction headers as [|c cs IH]; [done|]. cbn [fmap list_fmap index_of].
  change (list_fmap _ _ (renamed column_renames) cs)
    with (renamed column_renames <$> cs).
  rewrite IH.
  destruct (String.eqb_spec (renamed column_renames c) "Obec") as [Hc|Hc];
    destruct (String.eqb_spec c "Obec") as [Hc'|Hc']; try done.
  - exfalso. apply Hc'. by apply renamed_key.
  - exfalso. apply Hc. by apply renamed_key.
Qed.

Lemma filter_key_renamed headers :
  length (filter (fun c => c = "Obec") (renamed column_renames <$> headers)) =
  length (filter (fun c => c = "Obec") headers).
Proof.
  induction headers as [|c cs IH]; [done|]. rewrite fmap_cons.
  destruct (decide (c = "Obec")) as [Hc|Hc].
  - rewrite !filter_cons_True; [cbn; by rewrite IH|done|by apply renamed_key].
  - rewrite !filter_cons_False; [done|done|by rewrite renamed_key].
Qed.

Lemma key_index_once key cols i :
  key_index key cols = Ok i → length (filter (fun c => c = key) cols) = 1.
Proof.
  unfold key_index. destruct (index_of key cols) as [i'|] eqn:Hi; [|done].
  case_bool_decide as Hin; [done|]. intros _. clear i.
  revert i' Hi Hin. induction cols as [|c cs IH]; intros i'; [done|].
  cbn [index_of]. destruct (String.eqb_spec c key) as [->|Hne].
  - intros [= <-] Hnin. cbn in Hnin. rewrite filter_cons_True by done.
    rewrite (filter_none (fun c => c = key) cs); [done|].
    apply Forall_forall. by intros c Hc ->.
  - destruct (index_of key cs) as [i0|]; [|done]. intros [= <-] Hnin.
    rewrite filter_cons_False by done. by eapply IH.
Qed.

Lemma of_rows_columns rows headers df :
  of_rows rows headers = Ok df → columns df = headers.
Proof.
  unfold of_rows. destruct rows; [by intros [= <-]|].
  destruct (_ =? _); [by intros [= <-]|done].
Qed.

Lemma of_rows_raises rows headers e :
  of_rows rows headers = Raise e → e = FrameError.
Proof.
  unfold of_rows. destruct rows; [done|].
  destruct (_ =? _); [done|]. by intros [= <-].
Qed.

Lemma key_index_raises key cols e :
  key_index key cols = Raise e → e = FrameError.
Proof.
  unfold key_index. destruct (index_of key cols); [|by intros [= <-]].
  case_bool_decide; [by intros [= <-]|done].
Qed.

Lemma merge_outer_keys left right key df :
  merge_outer left right key = Ok df →
  ∃ i j, key_index key (columns left) = Ok i ∧
         key_index key (columns right) = Ok j.
Proof.
  unfold merge_outer.
  destruct (key_index key (columns right)) as [j|]; [|done].
  cbn [mbind res_bind].
  destruct (key_index key (columns left)) as [i|]; [|done]. eauto.
Qed.

Lemma merge_outer_raises left right key e :
  merge_outer left right key = Raise e → e = FrameError.
Proof.
  unfold merge_outer.
  destruct (key_index key (columns right)) as [j|e'] eqn:Hj;
    cbn [mbind res_bind];
    [|intros [= <-]; by eapply key_index_raises].
  destruct (key_index key (columns left)) as [i|e'] eqn:Hi;
    cbn [mbind res_bind];
    [|intros [= <-]; by eapply key_index_raises].
  destruct (_ || _); [by intros [= <-]|done].
Qed.

(** Whatever goes wrong in [merge_two_tables] is an error of pandas. *)
Lemma merge_two_tables_raises headers1 rows1 headers2 rows2 e :
  merge_two_tables headers1 rows1 headers2 rows2 = Raise e → e = FrameError.
Proof.
  unfold merge_two_tables.
  destruct headers1 as [h1|]; [|by intros [= <-]].
  destruct headers2 as [h2|]; [|by intros [= <-]].
  destruct (of_rows rows1 h1) as [df1|e1] eqn:H1; cbn [mbind res_bind];
    [|intros [= <-]; by eapply of_rows_raises].
  destruct (of_rows rows2 h2) as [df2|e2] eqn:H2; cbn [mbind res_bind];
    [|intros [= <-]; by eapply of_rows_raises].
  apply merge_outer_raises.
Qed.

Lemma merge_two_tables_keys headers1 rows1 headers2 rows2 df :
  merge_two_tables (Some headers1) rows1 (Some headers2) rows2 = Ok df →
  ∃ i j,
    key_index "Obec" (renamed column_renames <$> headers1) = Ok i ∧
    key_index "Obec" headers2 = Ok j.
Proof.
  unfold merge_two_tables.
  destruct (of_rows rows1 headers1) as [df1|] eqn:H1; [|done].
  destruct (of_rows rows2 headers2) as [df2|] eqn:H2; [|done].
  cbn [mbind res_bind]. intros (i & j & Hi & Hj)%merge_outer_keys.
  apply of_rows_columns in H1, H2. cbn in Hi. rewrite H1 in Hi.
  rewrite H2 in Hj. eauto.
Qed.

End MergeMore.

(** X13: for tables whose rows fit their headers, a key carried by rows of
    both tables gives every pairing of a row of the first with a row of the
    second, the first table's fields followed by the second's without its
    key, in the order of the tables; with one row each, exactly one row. *)
Theorem merge_matched_keys
    (headers1 headers2 : list string) (rows1 rows2 : list (list cell))
    (df : DataFrame) (i j : nat) (k : cell) :
  Forall (fun row => length row = length headers1) rows1 →
  Forall (fun row => length row = length headers2) rows2 →
  merge_two_tables (Some headers1) rows1 (Some headers2) rows2 = Ok df →
  Pandas.index_of "Obec" (Pandas.renamed column_renames <$> headers1) = Some i →
  Pandas.index_of "Obec" headers2 = Some j →
  filter (Pandas.has_key i k) rows1 ≠ [] →
  filter (Pandas.has_key j k) rows2 ≠ [] →
  filter (Pandas.has_key i k) (values df) =
    l ← filter (Pandas.has_key i k) rows1;
    (fun r => l ++ delete j r) <$> filter (Pandas.has_key j k) rows2.
Proof.
  intros Hfit1 Hfit2 Hmerge Hi Hj H1 H2.
  rewrite MergeFacts.merge_two_tables_fit in Hmerge by done.
  rewrite (MergeMore.merge_outer_rows_of_key _ _ _ _ _ _ k Hmerge Hi Hj).
  unfold Pandas.joined. cbn [values].
  destruct (filter (Pandas.has_key i k) rows1); [done|].
  by destruct (filter (Pandas.has_key j k) rows2).
Qed.

(** Unit1 is in both tables of [Scenario]. *)
Lemma merge_matched_keys_witness :
  ∃ df,
    merge_two_tables (Some Scenario.turnout_header) Scenario.turnout_rows
                     (Some Scenario.party_header) Scenario.party_rows = Ok df ∧
    filter (Pandas.has_key 0 (Some "Unit1")) (values df)
      = [[Some "Unit1"; Some "001"; Some "100"; Some "30"; Some "0"]].
Proof.
  eexists. split; [reflexivity|].
  apply (merge_matched_keys Scenario.turnout_header Scenario.party_header
           Scenario.turnout_rows Scenario.party_rows _ 0 0 (Some "Unit1")).
  - repeat constructor.
  - repeat constructor.
  - reflexivity.
  - reflexivity.
  - reflexivity.
  - discriminate.
  - discriminate.
Defined.

(** X14: for tables whose rows fit their headers, the merged frame is
    rectangular: it has the labels of the first table and those of the
    second but its key, and every row has one field per label. *)
Theorem merge_rectangular
    (headers1 headers2 : list string) (rows1 rows2 : list (list cell))
    (df : DataFrame) :
  Forall (fun row => length row = length headers1) rows1 →
  Forall (fun row => length row = length headers2) rows2 →
  merge_two_tables (Some headers1) rows1 (Some headers2) rows2 = Ok df →
  length (columns df) = length headers1 + (length headers2 - 1) ∧
  Forall (fun row => length row = length (columns df)) (values df).
Proof.
  intros Hfit1 Hfit2 Hmerge.
  rewrite MergeFacts.merge_two_tables_fit in Hmerge by done.
  pose proof Hmerge as Hkeys. unfold Pandas.merge_outer in Hkeys.
  destruct (Pandas.key_index "Obec" (columns (Frame headers2 rows2)))
    as [j|] eqn:Hj; [|done].
  cbn in Hkeys.
  destruct (Pandas.key_index "Obec" _) as [i|] eqn:Hi in Hkeys; [|done].
  clear Hkeys.
  apply PandasFacts.key_index_Ok in Hi, Hj. cbn in Hi, Hj.
  destruct (MergeFacts.merge_outer_inv _ _ _ _ _ _ Hmerge Hi Hj)
    as [Hcols Hrows].
  cbn in Hcols, Hrows.
  assert (i < length headers1) as Hlti.
  { apply PandasFacts.index_of_lookup, lookup_lt_Some in Hi.
    by rewrite length_fmap in Hi. }
  assert (j < length headers2) as Hltj
    by (eapply lookup_lt_Some, PandasFacts.index_of_lookup, Hj).
  assert (length (columns df) = length headers1 + (length headers2 - 1)) as Hlen.
  { rewrite Hcols, length_app, !length_fmap, length_delete; [done|].
    by apply lookup_lt_is_Some. }
  split; [done|]. rewrite Hlen, Hrows. apply Forall_forall.
  intros row (k & Hrow & _)%list_elem_of_bind. rewrite length_fmap in Hrow.
  by eapply MergeMore.joined_length.
Qed.

(** The merged frame of the two tables of [Scenario] has five columns. *)
Lemma merge_rectangular_witness :
  ∃ df,
    merge_two_tables (Some Scenario.turnout_header) Scenario.turnout_rows
                     (Some Scenario.party_header) Scenario.party_rows = Ok df ∧
    length (columns df) = 5 ∧
    Forall (fun row => length row = length (columns df)) (values df).
Proof.
  eexists. split; [reflexivity|].
  apply (merge_rectangular Scenario.turnout_header Scenario.party_header
           Scenario.turnout_rows Scenario.party_rows).
  - repeat constructor.
  - repeat constructor.
  - reflexivity.
Defined.

(** X15: the join is refused unless ["Obec"] labels exactly one column of
    each header, whatever the rows: headers without it (or with it twice,
    as the party header has when a party is named Obec) raise. *)
Theorem merge_requires_one_key
    (headers1 headers2 : list string) (rows1 rows2 : list (list cell)) :
  length (filter (fun c => c = "Obec") headers1) ≠ 1 ∨
  length (filter (fun c => c = "Obec") headers2) ≠ 1 →
  merge_two_tables (Some headers1) rows1 (Some headers2) rows2
    = Raise FrameError.
Proof.
  intros Hkeys.
  destruct (merge_two_tables (Some headers1) rows1 (Some headers2) rows2)
    as [df|e] eqn:Hmerge.
  - destruct (MergeMore.merge_two_tables_keys _ _ _ _ _ Hmerge)
      as (i & j & Hi & Hj).
    apply MergeMore.key_index_once in Hi, Hj.
    rewrite MergeMore.filter_key_renamed in Hi. by destruct Hkeys.
  - f_equal. by eapply MergeMore.merge_two_tables_raises.
Qed.

(** The headers of the merge scenario of the specification have no
    "Obec". *)
Lemma merge_requires_one_key_witness :
  merge_two_tables (Some ["code"; "name"; "registered"; "voted"])
                   [[Some "001"; Some "Unit1"; Some "100"; Some "50"]]
                   (Some ["Obec"; "Party X"]) [[Some "Unit1"; Some "30"]]
  = Raise FrameError.
Proof.
  apply (merge_requires_one_key ["code"; "name"; "registered"; "voted"]
           ["Obec"; "Party X"]).
  left. vm_compute. lia.
Defined.

(** X16: the renaming before the join neither makes nor unmakes a join
    key: a column is labelled ["Obec"] after it exactly when it was
    before. *)
Theorem rename_keeps_join_key (headers : list string) (p : nat) :
  (Pandas.renamed column_renames <$> headers) !! p = Some "Obec" ↔
  headers !! p = Some "Obec".
Proof.
  rewrite list_lookup_fmap. destruct (headers !! p) as [c|]; cbn; [|done].
  split; intros [= H]; f_equal; by apply MergeMore.renamed_key.
Qed.

(** X17: for tables whose rows fit their headers, the join loses no row:
    every row of the first table is the beginning of a row of the merged
    frame, and every row of the second table, without its key, is the end
    of one. *)
Theorem merge_keeps_every_row
    (headers1 headers2 : list string) (rows1 rows2 : list (list cell))
    (df : DataFrame) (j : nat) :
  Forall (fun row => length row = length headers1) rows1 →
  Forall (fun row => length row = length headers2) rows2 →
  merge_two_tables (Some headers1) rows1 (Some headers2) rows2 = Ok df →
  Pandas.index_of "Obec" headers2 = Some j →
  (∀ l, l ∈ rows1 →
     ∃ row, row ∈ values df ∧ take (length headers1) row = l) ∧
  (∀ r, r ∈ rows2 →
     ∃ row, row ∈ values df ∧ drop (length headers1) row = delete j r).
Proof.
  intros Hfit1 Hfit2 Hmerge Hj.
  destruct (MergeMore.merge_two_tables_keys _ _ _ _ _ Hmerge)
    as (i & j' & Hi%PandasFacts.key_index_Ok & _).
  rewrite MergeFacts.merge_two_tables_fit in Hmerge by done.
  assert (i < length headers1) as Hlti.
  { apply PandasFacts.index_of_lookup, lookup_lt_Some in Hi.
    by rewrite length_fmap in Hi. }
  assert (j < length headers2) as Hltj
    by (eapply lookup_lt_Some, PandasFacts.index_of_lookup, Hj).
  pose proof (fun k => MergeMore.merge_outer_rows_of_key _ _ _ _ _ _ k
                         Hmerge Hi Hj) as Hgroup.
  cbn in Hgroup. rewrite length_fmap in Hgroup.
  rewrite Forall_forall in Hfit1. rewrite Forall_forall in Hfit2.
  assert (∀ k row,
            row ∈ Pandas.joined i j (length headers1) (length headers2)
                    rows1 rows2 k → row ∈ values df) as Hin.
  { intros k row Hrow. rewrite <- Hgroup in Hrow.
    by apply list_elem_of_filter in Hrow as [_ ?]. }
  split.
  - intros l Hl.
    destruct (lookup_lt_is_Some_2 l i) as [k Hk]; [by rewrite (Hfit1 _ Hl)|].
    assert (l ∈ filter (Pandas.has_key i k) rows1) as HlL
      by by apply list_elem_of_filter.
    destruct (filter (Pandas.has_key j k) rows2) as [|r0 Rk] eqn:HR.
    + exists (l ++ replicate (length headers2 - 1) None). split.
      * apply (Hin k). unfold Pandas.joined. rewrite HR.
        destruct (filter (Pandas.has_key i k) rows1) as [|l0 Lk] eqn:HL;
          [by apply elem_of_nil in HlL|].
        apply list_elem_of_fmap. by exists l.
      * by apply take_app_length', eq_sym, Hfit1.
    + exists (l ++ delete j r0). split.
      * apply (Hin k). unfold Pandas.joined. rewrite HR.
        destruct (filter (Pandas.has_key i k) rows1) as [|l0 Lk] eqn:HL;
          [by apply elem_of_nil in HlL|].
        apply list_elem_of_bind. exists l. split; [|done].
        apply list_elem_of_fmap. exists r0. split; [done|apply list_elem_of_here].
      * by apply take_app_length', eq_sym, Hfit1.
  - intros r Hr.
    destruct (lookup_lt_is_Some_2 r j) as [k Hk]; [by rewrite (Hfit2 _ Hr)|].
    assert (r ∈ filter (Pandas.has_key j k) rows2) as HrR
      by by apply list_elem_of_filter.
    destruct (filter (Pandas.has_key i k) rows1) as [|l0 Lk] eqn:HL.
    + exists (<[i:=k]> (replicate (length headers1) None) ++ delete j r). split.
      * apply (Hin k). unfold Pandas.joined. rewrite HL.
        apply list_elem_of_fmap. by exists r.
      * apply drop_app_length'. by rewrite length_insert, length_replicate.
    + exists (l0 ++ delete j r). split.
      * apply (Hin k). unfold Pandas.joined. rewrite HL.
        destruct (filter (Pandas.has_key j k) rows2) as [|r0 Rk] eqn:HR;
          [by apply elem_of_nil in HrR|].
        apply list_elem_of_bind. exists l0. split; [|apply list_elem_of_here].
        apply list_elem_of_fmap. by exists r.
      * apply drop_app_length', eq_sym, Hfit1.
        assert (l0 ∈ filter (Pandas.has_key i k) rows1) as Hl0
          by (rewrite HL; apply list_elem_of_here).
        by apply list_elem_of_filter in Hl0 as [_ ?].
Qed.

(** The rows of Unit2 and of Unit3 of [Scenario] are in the merged frame. *)
Lemma merge_keeps_every_row_witness :
  ∃ df,
    merge_two_tables (Some Scenario.turnout_header) Scenario.turnout_rows
                     (Some Scenario.party_header) Scenario.party_rows = Ok df ∧
    (∃ row, row ∈ values df ∧
            take 3 row = [Some "Unit2"; Some "002"; Some "50"]) ∧
    (∃ row, row ∈ values df ∧ drop 3 row = [Some "7"; Some "12"]).
Proof.
  eexists. split; [reflexivity|].
  destruct (merge_keeps_every_row Scenario.turnout_header Scenario.party_header
              Scenario.turnout_rows Scenario.party_rows _ 0
              ltac:(repeat constructor) ltac:(repeat constructor)
              eq_refl eq_refl) as [Hleft Hright].
  split.
  - apply (Hleft [Some "Unit2"; Some "002"; Some "50"]).
    apply list_elem_of_further, list_elem_of_here.
  - apply (Hright [Some "Unit3"; Some "7"; Some "12"]).
    apply list_elem_of_further, list_elem_of_here.
Defined.

(** ** [validate_user_input], further *)

Section ValidateMore.

Variable lower : string → string.
Variable strip : string → string.

(** The loop with [break] stops at the first entry whose url matches. *)
Lemma district_from_url_first user_url (districts : dict string) d :
  district_from_url lower strip user_url districts = Some d ↔
  ∃ before name url after,
    districts = before ++ (name, url) :: after ∧
    (∀ e, e ∈ before → strip user_url ≠ strip e.2) ∧
    strip user_url = strip url ∧
    d = lower name.
Proof.
  induction districts as [|[name0 url0] rest IH]; cbn.
  - split; [done|]. intros (before & ? & ? & ? & Heq & _).
    by destruct before.
  - destruct (String.eqb_spec (strip user_url) (strip url0)) as [Hm|Hm].
    + split.
      * intros [= <-]. exists [], name0, url0, rest. split; [done|].
        split; [|done]. intros e He. by apply elem_of_nil in He.
      * intros (before & name & url & after & Heq & Hbefore & _ & ->).
        destruct before as [|e before]; [by injection Heq as -> -> ->|].
        injection Heq as <- _. exfalso.
        apply (Hbefore (name0, url0)); [apply list_elem_of_here|done].
    + rewrite IH. split.
      * intros (before & name & url & after & -> & Hbefore & Hurl & ->).
        exists ((name0, url0) :: before), name, url, after.
        split; [done|]. split; [|done].
        intros e [->|He]%elem_of_cons; [done|by apply Hbefore].
      * intros (before & name & url & after & Heq & Hbefore & Hurl & ->).
        destruct before as [|e before].
        { injection Heq as -> -> ->. done. }
        injection Heq as <- ->. exists before, name, url, after.
        split; [done|]. split; [|done].
        intros e He. by apply Hbefore, list_elem_of_further.
Qed.


End ValidateMore.

(** X18: validation passes exactly when the file name ends in [.csv] and
    holds no quote, some entry of the index has the url, both stripped, and
    the district text of the file name is contained in the lower-cased name
    of the first such entry; entries after it with the same url are not
    looked at. *)
Theorem validate_passes_iff
    (lower strip : string → string)
    (user_url output_filename : string) (districts : dict string) :
  validate_user_input lower strip user_url output_filename districts = Ok () ↔
  filename_ok lower output_filename = true ∧
  ∃ before name url after,
    districts = before ++ (name, url) :: after ∧
    (∀ e, e ∈ before → strip user_url ≠ strip e.2) ∧
    strip user_url = strip url ∧
    Str.contains (district_from_filename lower strip output_filename)
                 (lower name) = true.
Proof.
  split.
  - unfold validate_user_input.
    destruct (filename_ok lower output_filename); [|done]. cbn.
    destruct (district_from_url lower strip user_url districts) as [d|] eqn:Hd;
      [|done].
    destruct (Str.contains _ d) eqn:Hc; [|done]. intros _. split; [done|].
    apply district_from_url_first in Hd
      as (before & name & url & after & ? & ? & ? & ->).
    by exists before, name, url, after.
  - intros (Hok & before & name & url & after & Heq & Hbefore & Hurl & Hc).
    assert (district_from_url lower strip user_url districts
            = Some (lower name)) as Hd.
    { apply district_from_url_first. by exists before, name, url, after. }
    by rewrite (validate_decided _ _ _ _ _ _ Hok Hd), Hc.
Qed.

(** Two entries with one url: the first decides. *)
Lemma validate_passes_iff_witness :
  validate_user_input Ascii7.lower Ascii7.strip "https://x/a" "vysledky_east.csv"
    [("east", "https://x/a"); ("west", "https://x/a")] = Ok () ∧
  validate_user_input Ascii7.lower Ascii7.strip "https://x/a" "vysledky_west.csv"
    [("east", "https://x/a"); ("west", "https://x/a")] ≠ Ok ().
Proof.
  split.
  - apply (proj2 (validate_passes_iff Ascii7.lower Ascii7.strip "https://x/a"
                    "vysledky_east.csv"
                    [("east", "https://x/a"); ("west", "https://x/a")])).
    split; [reflexivity|].
    exists [], "east", "https://x/a", [("west", "https://x/a")].
    split; [reflexivity|]. split; [|split; reflexivity].
    intros e He. by apply elem_of_nil in He.
  - discriminate.
Defined.

(** ** [main.py] *)

Section PipelineFacts.

Variable strip : string → string.
Variable int : string → option Z.
Variable get_page_content : string → option node.

(** A page without a table gives the party collector nothing to read. *)
Lemma page_rows_no_table data :
  turnout_table get_page_content data = None →
  page_rows strip get_page_content data = [] ∧
  ∀ name, processed get_page_content (name, data) = false.
Proof.
  unfold turnout_table, page_rows, processed. cbn.
  destruct (get_page_content (url data)) as [soup|]; cbn; [|done].
  unfold Soup.find. by destruct (Soup.find_all "table" [] soup).
Qed.

Lemma nothing_to_read units :
  (∀ u, u ∈ units → turnout_table get_page_content u.2 = None) →
  encountered strip get_page_content units = [] ∧
  unit_results strip get_page_content units = [].
Proof.
  induction units as [|[name data] rest IH]; intros Hnone; [done|].
  destruct (page_rows_no_table data) as [Hrows Hprocessed];
    [apply (Hnone (name, data)), list_elem_of_here|].
  destruct IH as [IHe IHu];
    [intros u Hu; by apply Hnone, list_elem_of_further|].
  split.
  - unfold encountered in *. cbn. by rewrite Hrows, IHe.
  - rewrite unit_results_cons. by rewrite Hprocessed.
Qed.

(** The rows of the party table fit its header, begin with the name of a
    unit of the run, and the header begins with the join key. *)
Lemma party_table_shape units header rows :
  get_district_party_results strip int get_page_content units
    = Ok (header, rows) →
  Pandas.index_of "Obec" header = Some 0 ∧
  Forall (fun row => length row = length header) rows ∧
  ∀ row, row ∈ rows → ∃ u, u ∈ units ∧ row !! 0 = Some (Some u.1).
Proof.
  rewrite get_district_party_results_eq.
  destruct (numbered int _) as [vocab|]; [|done].
  intros [= <- <-]. split; [done|]. split.
  - apply Forall_fmap, Forall_forall. intros entry _.
    unfold party_table_row. cbn. by rewrite length_map.
  - intros row (entry & -> & Hentry)%list_elem_of_fmap.
    apply elem_of_assign_all in Hentry as [Hentry|Hentry];
      [by apply elem_of_nil in Hentry|].
    unfold unit_results in Hentry.
    apply list_elem_of_fmap in Hentry as (u & -> & Hu).
    apply list_elem_of_In, filter_In in Hu as [Hu _].
    exists u. split; [by apply list_elem_of_In|done].
Qed.

(** The header of the turnout table has its join key in second place. *)
Lemma turnout_key_position units headers rows :
  get_district_turnout_summary strip get_page_content units
    = (Some headers, rows) →
  Pandas.index_of "Obec" (Pandas.renamed column_renames <$> headers) = Some 1.
Proof.
  rewrite get_district_turnout_summary_spec.
  destruct (head (turnout_tables get_page_content units)) as [t|]; [|done].
  by intros [= <- _].
Qed.

End PipelineFacts.

(** X19: the two collectors feed the join with different keys: the turnout
    table has the unit's code in its "Obec" column and the party table the
    unit's name.  So when no unit's code is the name of a unit, no row of
    the merged frame combines the two tables: each is a turnout row followed
    by missing values only, or a party row behind missing values and its
    key. *)
Theorem turnout_and_party_never_joined
    (strip : string → string) (int : string → option Z)
    (get_page_content : string → option node) (units : dict unit_data)
    (headers1 headers2 : list string) (rows1 rows2 : list (list cell))
    (df : DataFrame) :
  get_district_turnout_summary strip get_page_content units
    = (Some headers1, rows1) →
  get_district_party_results strip int get_page_content units
    = Ok (headers2, rows2) →
  Forall (fun row => length row = length headers1) rows1 →
  merge_two_tables (Some headers1) rows1 (Some headers2) rows2 = Ok df →
  (∀ u u', u ∈ units → u' ∈ units → cislo_obce u.2 ≠ Some u'.1) →
  ∀ row, row ∈ values df →
    (∃ l, l ∈ rows1 ∧ row = l ++ replicate (length headers2 - 1) None) ∨
    (∃ r, r ∈ rows2 ∧
          row = <[1 := default None (r !! 0)]>
                  (replicate (length headers1) None) ++ delete 0 r).
Proof.
  intros Hturnout Hparty Hfit1 Hmerge Hdistinct row Hrow.
  pose proof (turnout_key_position _ _ _ _ _ Hturnout) as Hi.
  destruct (party_table_shape _ _ _ _ _ _ Hparty) as (Hj & Hfit2 & Hnames).
  rewrite MergeFacts.merge_two_tables_fit in Hmerge by done.
  destruct (MergeFacts.merge_outer_inv _ _ _ _ _ _ Hmerge Hi Hj) as [_ Hrows].
  cbn in Hrows. rewrite length_fmap in Hrows. rewrite Hrows in Hrow.
  apply list_elem_of_bind in Hrow as (k & Hrow & _).
  unfold Pandas.joined in Hrow.
  destruct (filter (Pandas.has_key 1 k) rows1) as [|l0 Lk] eqn:HL.
  - right. apply list_elem_of_fmap in Hrow as (r & -> & Hr).
    apply list_elem_of_filter in Hr as [Hk Hr].
    exists r. split; [done|]. unfold Pandas.has_key in Hk. by rewrite Hk.
  - assert (filter (Pandas.has_key 0 k) rows2 = []) as HR.
    { apply filter_none, Forall_forall. intros r Hr Hk.
      destruct (Hnames r Hr) as (u' & Hu' & Hname).
      assert (l0 ∈ filter (Pandas.has_key 1 k) rows1) as Hl0
        by (rewrite HL; apply list_elem_of_here).
      apply list_elem_of_filter in Hl0 as [Hcode Hl0].
      assert (l0 ∈ (get_district_turnout_summary strip get_page_content
                      units).2) as Hl0' by by rewrite Hturnout.
      apply turnout_row_prefix in Hl0' as (name & data & fields & Hu & ->).
      unfold Pandas.has_key in Hk, Hcode. cbn in Hcode.
      apply (Hdistinct (name, data) u' Hu Hu'). cbn. congruence. }
    rewrite HR in Hrow. left.
    apply list_elem_of_fmap in Hrow as (l & -> & Hl).
    rewrite <- HL in Hl.
    apply list_elem_of_filter in Hl as [_ Hl]. by exists l.
Qed.

(** Alfa and Beta of [Cases.three_units]: four rows, none of them joined. *)
Lemma turnout_and_party_never_joined_witness :
  ∃ df,
    merge_two_tables
      (Some ["Číslo obce"; "Obec"; "Voličiv seznamu"; "Vydanéobálky"])
      [ [Some "Alfa"; Some "1"; Some "205"; Some "150"];
        [Some "Beta"; Some "2"; Some "205"; Some "150"] ]
      (Some ["Obec"; "Party A"; "Party B"])
      [ [Some "Alfa"; Some "20"; Some "10"];
        [Some "Beta"; Some "8"; Some "0"] ] = Ok df ∧
    length (values df) = 4 ∧
    ∀ row, row ∈ values df →
      (∃ l, l ∈ [ [Some "Alfa"; Some "1"; Some "205"; Some "150"];
                  [Some "Beta"; Some "2"; Some "205"; Some "150"] ] ∧
            row = l ++ replicate 2 None) ∨
      (∃ r, r ∈ [ [Some "Alfa"; Some "20"; Some "10"];
                  [Some "Beta"; Some "8"; Some "0"] ] ∧
            row = <[1 := default None (r !! 0)]> (replicate 4 None)
                  ++ delete 0 r).
Proof.
  eexists. split; [reflexivity|]. split; [reflexivity|].
  apply (turnout_and_party_never_joined Ascii7.strip Ascii7.int
           Cases.unit_pages Cases.three_units
           ["Číslo obce"; "Obec"; "Voličiv seznamu"; "Vydanéobálky"]
           ["Obec"; "Party A"; "Party B"]).
  - reflexivity.
  - reflexivity.
  - repeat constructor.
  - reflexivity.
  - intros u u' Hu Hu'. unfold Cases.three_units in Hu, Hu'.
    repeat (apply elem_of_cons in Hu as [->|Hu]);
      try (by apply elem_of_nil in Hu);
      repeat (apply elem_of_cons in Hu' as [->|Hu']);
      try (by apply elem_of_nil in Hu'); discriminate.
Defined.

Section MainFacts.

Variable lower : string → string.
Variable strip : string → string.
Variable int : string → option Z.
Variable urljoin : string → option attr_val → res string.
Variable xobec_of : string → res (option string).
Variable get_page_content : string → option node.

#[local] Abbreviation run_main :=
  (main lower strip int urljoin xobec_of get_page_content).

Lemma main_scrape program url output_file soup_home districts :
  get_page_content home_url = Some soup_home →
  init_district_data lower strip urljoin soup_home = Ok districts →
  run_main [program; url; output_file] =
    scrape lower strip int urljoin xobec_of get_page_content
      url output_file districts.
Proof. intros Hhome Hinit. unfold main. by rewrite Hhome, Hinit. Qed.

End MainFacts.



(** X21: when the district's units are found but none of their pages is
    fetched with a table in it (the empty district included), nothing is
    saved and no exit code is set: the turnout collector returns no header,
    and the join raises the error of pandas for a missing key column. *)
Theorem main_fails_without_unit_pages
    (lower strip : string → string) (int : string → option Z)
    (urljoin : string → option attr_val → res string)
    (xobec_of : string → res (option string))
    (get_page_content : string → option node)
    (program url output_file : string) (soup_home soup_district : node)
    (districts : dict string) (units : dict unit_data) :
  get_page_content home_url = Some soup_home →
  init_district_data lower strip urljoin soup_home = Ok districts →
  validate_user_input lower strip url output_file districts = Ok () →
  url ∈ districts.*2 →
  get_page_content url = Some soup_district →
  extract_district_units strip urljoin xobec_of soup_district url = Ok units →
  (∀ u, u ∈ units → turnout_table get_page_content u.2 = None) →
  main lower strip int urljoin xobec_of get_page_content
    [program; url; output_file] = Failed FrameError.
Proof.
  intros Hhome Hinit Hvalid Hurl Hdistrict Hunits Hnone.
  rewrite (main_scrape _ _ _ _ _ _ _ _ _ _ _ Hhome Hinit). unfold scrape.
  rewrite Hvalid, bool_decide_eq_true_2 by done. cbn.
  rewrite Hdistrict, Hunits.
  rewrite get_district_turnout_summary_spec, get_district_party_results_eq.
  destruct (nothing_to_read strip get_page_content units Hnone) as [-> ->].
  assert (turnout_tables get_page_content units = []) as ->.
  { unfold turnout_tables. clear -Hnone.
    induction units as [|u rest IH]; [done|]. cbn.
    rewrite (Hnone u) by apply list_elem_of_here.
    apply IH. intros u' Hu'. by apply Hnone, list_elem_of_further. }
  done.
Qed.

(** On [Cases.quiet] the pages of the three units of Praha are not
    served. *)
Lemma main_fails_without_unit_pages_witness :
  main Ascii7.lower Ascii7.strip Ascii7.int Cases.urljoin Scenario.xobec_of
    Cases.quiet ["main.py"; Cases.praha_url; "vysledky_praha.csv"]
    = Failed FrameError.
Proof.
  apply (main_fails_without_unit_pages Ascii7.lower Ascii7.strip Ascii7.int
           Cases.urljoin Scenario.xobec_of Cases.quiet
           "main.py" Cases.praha_url "vysledky_praha.csv"
           Cases.landing Scenario.district_page
           [ ("praha", Cases.praha_url);
             ("benešov",
              "https://www.volby.cz/pls/ps2017nss/ps32?xnumnuts=2101") ]
           [ ("Alfa",
              UnitData "https://www.volby.cz/pls/ps2017nss/ps311?xobec=3"
                (Some "3"));
             ("Beta",
              UnitData "https://www.volby.cz/pls/ps2017nss/ps311?xobec=2"
                (Some "2")) ]).
  - reflexivity.
  - vm_compute. reflexivity.
  - reflexivity.
  - apply list_elem_of_here.
  - reflexivity.
  - vm_compute. reflexivity.
  - intros u Hu.
    repeat (apply elem_of_cons in Hu as [->|Hu]; [reflexivity|]).
    by apply elem_of_nil in Hu.
Defined.
